(** * Roofing cost calculator: the estimation core

    A shallow embedding of [client/src/lib/roofing-calculations.ts] (with the
    types of [types/roofing.ts]) and the properties of its two entry points,
    [calculateRoofingCost] and [calculateRoofSize].

    The TypeScript code computes on JavaScript numbers.  The embedding is
    written once, over an interface [JSNumber] of the operations the code
    uses, and read at two number types:

    - [Binary64]: IEEE 754 binary64 (Rocq's primitive floats), the numbers a
      JavaScript engine computes with; every definition evaluates there;
    - [Ideal]: the real numbers, the arithmetic of the specification, where
      "equal up to floating-point tolerance" is plain equality;
    - [Rounded]: the reals with a rounding after every literal and
      operation, the standard model of floating-point arithmetic, where
      "up to floating-point tolerance" is a bound in the unit roundoff.

    An equality between amounts is stated at every number type when it holds
    by the shape of the computation, and in rounded arithmetic, with its
    tolerance, when it holds up to rounding only. *)

From Stdlib Require Import ZArith QArith Reals Lra Lia Bool String List.
From Stdlib Require Import Floats.
Import ListNotations.
Open Scope string_scope.

Set Warnings "-inexact-float".

(** ** JavaScript values used by the calculator *)

(** The operations on [number] that the source uses.  [lit q] is the value of
    the decimal literal [q]; [ToBoolean] is the truth value of a number in a
    condition ([!x] is its negation): false on [0], [-0] and [NaN]. *)
Class JSNumber (number : Type) : Type := {
  lit : Q -> number;
  add : number -> number -> number;
  mul : number -> number -> number;
  div : number -> number -> number;
  leb : number -> number -> bool;
  ToBoolean : number -> bool;
  Math_sqrt : number -> number;
  Math_round : number -> number
}.

Arguments lit {number _} _%_Q.

Declare Scope js_scope.
Delimit Scope js_scope with js.
Infix "+" := add : js_scope.
Infix "*" := mul : js_scope.
Infix "/" := div : js_scope.
Infix "<=?" := leb : js_scope.

(** A function either returns a value or throws. *)
Inductive Exception : Type := TypeError.

Inductive Completion (A : Type) : Type :=
| Return (value : A)
| Throw (e : Exception).

Arguments Return {A} value.
Arguments Throw {A} e.

(** A string in a condition: only the empty string is falsy. *)
Definition stringToBoolean (s : string) : bool :=
  negb (String.eqb s EmptyString).

(** An object literal with string keys, in the order its keys are written. *)
Definition Object (V : Type) : Type := list (string * V).

(** [o[k]]: the value of the own property [k], [None] for [undefined]. *)
Fixpoint get {V : Type} (o : Object V) (k : string) : option V :=
  match o with
  | [] => None
  | (k', v) :: o' => if String.eqb k k' then Some v else get o' k
  end.

(** ** types/roofing.ts *)

Inductive RoofingType : Type := residential | commercial.

(** [MaterialType | ''] is a union of string literals, used as a key of the
    pricing objects: a [string] here. *)
Definition MaterialType : Type := string.

Inductive JobType : Type := new | replacement | repair.

Module Complexity.
Inductive ComplexityType : Type := simple | medium | complex.
End Complexity.
Definition ComplexityType : Type := Complexity.ComplexityType.

Module Pitch.
Inductive PitchType : Type := flat | low | medium | steep.
End Pitch.
Definition PitchType : Type := Pitch.PitchType.

Definition JobType_eqb (a b : JobType) : bool :=
  match a, b with
  | new, new | replacement, replacement | repair, repair => true
  | _, _ => false
  end.

Definition RoofingType_eqb (a b : RoofingType) : bool :=
  match a, b with
  | residential, residential | commercial, commercial => true
  | _, _ => false
  end.

Section Calculator.

Context {number : Type} {Num : JSNumber number}.
Local Open Scope js_scope.

(** [low, high] prices per sq ft, by material. *)
Definition MaterialPricing : Type := Object (number * number).

Record CostBreakdown : Type := {
  materials : number;
  labor : number;
  addons : number;
  totalLow : number;
  totalHigh : number;
  totalMid : number
}.

Record CalculatorFormData : Type := {
  roofingType : RoofingType;
  roofSize : number;
  material : MaterialType;
  jobType : JobType;
  complexity : ComplexityType;
  tearoff : bool;
  permits : bool
}.

Record RoofSizeHelperData : Type := {
  footprint : number;
  overhang : number;
  pitch : PitchType
}.

(** ** lib/roofing-calculations.ts *)

(** Material pricing data for 2025 Torrance, CA. *)
Definition materialPricing (roofingType : RoofingType) : MaterialPricing :=
  match roofingType with
  | residential =>
      [ ("asphalt", (lit 5, lit 10));
        ("clay", (lit 11, lit 25));
        ("metal", (lit 7, lit 20));
        ("wood", (lit 8, lit 15));
        ("slate", (lit 15, lit 40));
        ("membrane", (lit 7, lit 12)) ]
  | commercial =>
      [ ("tpo", (lit 4, lit 8));
        ("pvc", (lit 5, lit 9));
        ("epdm", (lit 4, lit 9));
        ("modified", (lit 4.5, lit 9));
        ("bur", (lit 5.5, lit 10));
        ("metal", (lit 8, lit 15));
        ("asphalt", (lit 7, lit 10)) ]
  end.

(** The three running base values [baseLow], [baseMid], [baseHigh], which
    the source updates in place, as one state threaded through the steps. *)
Record Base : Type := {
  baseLow : number;
  baseMid : number;
  baseHigh : number
}.

(** [baseLow *= k; baseMid *= k; baseHigh *= k]. *)
Definition scale (k : number) (b : Base) : Base :=
  {| baseLow := baseLow b * k;
     baseMid := baseMid b * k;
     baseHigh := baseHigh b * k |}.

(** Base cost calculation (lines 63-68). *)
Definition baseCost (roofSize lowCost highCost : number) : Base :=
  let midCost := (lowCost + highCost) / lit 2 in
  {| baseLow := roofSize * lowCost;
     baseMid := roofSize * midCost;
     baseHigh := roofSize * highCost |}.

Definition complexityMultipliers (complexity : ComplexityType) : number :=
  match complexity with
  | Complexity.simple => lit 0
  | Complexity.medium => lit 0.2
  | Complexity.complex => lit 0.4
  end.

(** Apply complexity multiplier to labor portion, 40% of base cost
    (lines 70-77). *)
Definition applyComplexity (complexity : ComplexityType) (b : Base) : Base :=
  let complexityMultiplier := complexityMultipliers complexity in
  let laborMultiplier := lit 1 + (complexityMultiplier * lit 0.4) in
  scale laborMultiplier b.

(** Add commercial adjustment, +10% for scale (lines 79-84). *)
Definition applyCommercial (roofingType : RoofingType) (b : Base) : Base :=
  if RoofingType_eqb roofingType commercial then scale (lit 1.1) b else b.

(** Calculate add-ons (lines 86-93). *)
Definition calculateAddons
    (roofSize : number) (jobType : JobType) (tearoff permits : bool)
    : number :=
  let addons := lit 0 in
  let addons :=
    if tearoff && JobType_eqb jobType replacement
    then addons + roofSize * lit 1.5
    else addons in
  let addons := if permits then addons + lit 500 else addons in
  addons.

(** Apply job type modifier for repairs (lines 95-100). *)
Definition applyJobType (jobType : JobType) (b : Base) : Base :=
  if JobType_eqb jobType repair then scale (lit 0.6) b else b.

(** Final totals and the breakdown for the chart, 60% materials and 40%
    labor (lines 102-118). *)
Definition finalTotals (b : Base) (addons : number) : CostBreakdown :=
  let totalLow := baseLow b + addons in
  let totalHigh := baseHigh b + addons in
  let totalMid := baseMid b + addons in
  let materialsCost := totalMid * lit 0.6 in
  let laborCost := totalMid * lit 0.4 in
  {| materials := materialsCost;
     labor := laborCost;
     addons := addons;
     totalLow := totalLow;
     totalHigh := totalHigh;
     totalMid := totalMid |}.

(** The base values after the three multiplicative steps, in the order the
    source applies them. *)
Definition adjustedBase
    (formData : CalculatorFormData) (lowCost highCost : number) : Base :=
  applyJobType (jobType formData)
    (applyCommercial (roofingType formData)
       (applyComplexity (complexity formData)
          (baseCost (roofSize formData) lowCost highCost))).

(** [calculateRoofingCost] (lines 55-119).  The pair [lowCost, highCost] is
    destructured from the looked-up entry; destructuring [undefined] (no
    such own property) or an inherited member of [Object.prototype] (none
    is iterable) throws a [TypeError].  The add-ons are computed before the
    repair modifier and added after it. *)
Definition calculateRoofingCost (formData : CalculatorFormData)
    : Completion (option CostBreakdown) :=
  let roofingType := roofingType formData in
  let roofSize := roofSize formData in
  let material := material formData in
  let jobType := jobType formData in
  let complexity := complexity formData in
  let tearoff := tearoff formData in
  let permits := permits formData in
  if negb (ToBoolean roofSize) || negb (stringToBoolean material)
     || (roofSize <=? lit 0)
  then Return None
  else
    match get (materialPricing roofingType) material with
    | None => Throw TypeError
    | Some (lowCost, highCost) =>
        let base := baseCost roofSize lowCost highCost in
        let base := applyComplexity complexity base in
        let base := applyCommercial roofingType base in
        let addons := calculateAddons roofSize jobType tearoff permits in
        let base := applyJobType jobType base in
        Return (Some (finalTotals base addons))
    end.

Definition pitchMultipliers (pitch : PitchType) : number :=
  match pitch with
  | Pitch.flat => lit 1.0
  | Pitch.low => lit 1.1
  | Pitch.medium => lit 1.3
  | Pitch.steep => lit 1.5
  end.

(** [calculateRoofSize] (lines 121-145). *)
Definition calculateRoofSize (data : RoofSizeHelperData) : number :=
  let footprint := footprint data in
  let overhang := overhang data in
  let pitch := pitch data in
  if negb (ToBoolean footprint) || (footprint <=? lit 0)
  then lit 0
  else
    let perimeter := lit 4 * Math_sqrt footprint in
    let overhangSqFt := (perimeter * overhang) / lit 12 in
    let pitchMultiplier := pitchMultipliers pitch in
    let wasteMultiplier := lit 1.125 in
    Math_round ((footprint + overhangSqFt) * pitchMultiplier * wasteMultiplier).

End Calculator.

Arguments CostBreakdown number : clear implicits.
Arguments CalculatorFormData number : clear implicits.
Arguments RoofSizeHelperData number : clear implicits.
Arguments Base number : clear implicits.
Arguments MaterialPricing number : clear implicits.

(** ** The two number types *)

(** IEEE 754 binary64, as the engine computes. *)
Module Binary64.

(** An integer as a float; exact below 2^53 in absolute value. *)
Definition of_Z (z : Z) : float :=
  match z with
  | Z0 => PrimFloat.zero
  | Zpos p => PrimFloat.of_uint63 (Uint63.of_Z (Zpos p))
  | Zneg p => PrimFloat.opp (PrimFloat.of_uint63 (Uint63.of_Z (Zpos p)))
  end.

(** A decimal literal denotes the float nearest to it.  Division rounds
    correctly, so the quotient of the literal's numerator and denominator
    (both exact) is that float. *)
Definition of_literal (q : Q) : float :=
  PrimFloat.div (of_Z (Qnum q)) (of_Z (Zpos (Qden q))).

Definition is_nan (x : float) : bool := negb (PrimFloat.eqb x x).

Definition to_boolean (x : float) : bool :=
  negb (PrimFloat.eqb x PrimFloat.zero || is_nan x).

(** [Math.round]: the nearest integer, a tie going up; [NaN], the
    infinities and the zeros are returned unchanged, and a result of zero
    keeps the sign of the argument.  A finite [x] is [v * 2^e] for integers
    [v] and [e]; for [e < 0] the result is [floor (x + 1/2)], computed on
    integers. *)
Definition round (x : float) : float :=
  match Prim2SF x with
  | S754_finite s m e =>
      if (0 <=? e)%Z then x
      else
        let v := if s then Zneg m else Zpos m in
        let q := ((2 * v + 2 ^ (- e)) / 2 ^ (1 - e))%Z in
        let r := PrimFloat.of_uint63 (Uint63.of_Z (Z.abs q)) in
        if s then PrimFloat.opp r else r
  | _ => x
  end.

#[global] Instance number : JSNumber float := {|
  lit := of_literal;
  add := PrimFloat.add;
  mul := PrimFloat.mul;
  div := PrimFloat.div;
  leb := PrimFloat.leb;
  ToBoolean := to_boolean;
  Math_sqrt := PrimFloat.sqrt;
  Math_round := round
|}.

End Binary64.

(** The real numbers.  There is no [NaN] and no signed zero, [Math.sqrt] is
    only called on a positive argument and the only divisors are the literals
    2 and 12, so every operation the calculator performs is the exact one. *)
Module Ideal.

Definition le_bool (x y : R) : bool := if Rle_dec x y then true else false.

Definition to_boolean (x : R) : bool := if Req_dec_T x 0 then false else true.

Definition round (x : R) : R := IZR (Zfloor (x + / 2)).

#[global] Instance number : JSNumber R := {|
  lit := Q2R;
  add := Rplus;
  mul := Rmult;
  div := Rdiv;
  leb := le_bool;
  ToBoolean := to_boolean;
  Math_sqrt := R_sqrt.sqrt;
  Math_round := round
|}.

End Ideal.

(** ** Sample requests *)

(** A commercial-only material code passed with category residential. *)
Definition tpoOnResidential {number : Type} {Num : JSNumber number}
    : CalculatorFormData number :=
  {| roofingType := residential; roofSize := lit 1000; material := "tpo";
     jobType := new; complexity := Complexity.simple;
     tearoff := false; permits := false |}.

(** Residential asphalt, 1000 sq ft, new, simple, no add-on. *)
Definition asphaltPlain {number : Type} {Num : JSNumber number}
    : CalculatorFormData number :=
  {| roofingType := residential; roofSize := lit 1000; material := "asphalt";
     jobType := new; complexity := Complexity.simple;
     tearoff := false; permits := false |}.

(** Residential asphalt, 1000 sq ft, new, simple, with permits. *)
Definition asphaltWithPermits {number : Type} {Num : JSNumber number}
    : CalculatorFormData number :=
  {| roofingType := residential; roofSize := lit 1000; material := "asphalt";
     jobType := new; complexity := Complexity.simple;
     tearoff := false; permits := true |}.

(** Commercial TPO, 1000 sq ft, new, complex, with permits. *)
Definition tpoComplexWithPermits {number : Type} {Num : JSNumber number}
    : CalculatorFormData number :=
  {| roofingType := commercial; roofSize := lit 1000; material := "tpo";
     jobType := new; complexity := Complexity.complex;
     tearoff := false; permits := true |}.

(** Footprint 1000 sq ft, overhang 12 in, medium pitch. *)
Definition mediumPitchHouse {number : Type} {Num : JSNumber number}
    : RoofSizeHelperData number :=
  {| footprint := lit 1000; overhang := lit 12; pitch := Pitch.medium |}.

(** Footprint 1 sq ft with an overhang of -100 in. *)
Definition negativeOverhang {number : Type} {Num : JSNumber number}
    (pitch : PitchType) : RoofSizeHelperData number :=
  {| footprint := lit 1; overhang := lit (-100); pitch := pitch |}.

(** The same request for another roof size. *)
Definition withRoofSize {number : Type}
    (formData : CalculatorFormData number) (size : number)
    : CalculatorFormData number :=
  {| roofingType := roofingType formData; roofSize := size;
     material := material formData; jobType := jobType formData;
     complexity := complexity formData; tearoff := tearoff formData;
     permits := permits formData |}.

(** The same request for another complexity, and for another job type. *)
Definition withComplexity {number : Type}
    (formData : CalculatorFormData number) (cx : ComplexityType)
    : CalculatorFormData number :=
  {| roofingType := roofingType formData; roofSize := roofSize formData;
     material := material formData; jobType := jobType formData;
     complexity := cx; tearoff := tearoff formData;
     permits := permits formData |}.

Definition withJobType {number : Type}
    (formData : CalculatorFormData number) (jt : JobType)
    : CalculatorFormData number :=
  {| roofingType := roofingType formData; roofSize := roofSize formData;
     material := material formData; jobType := jt;
     complexity := complexity formData; tearoff := tearoff formData;
     permits := permits formData |}.

(** A residential repair of a metal roof, 800 sq ft, medium complexity, with
    both flags set. *)
Definition metalRepair {number : Type} {Num : JSNumber number}
    : CalculatorFormData number :=
  {| roofingType := residential; roofSize := lit 800; material := "metal";
     jobType := repair; complexity := Complexity.medium;
     tearoff := true; permits := true |}.

(** The area before rounding, in real arithmetic: the argument of
    [Math.round] at line 144. *)
Definition exactRoofArea (data : RoofSizeHelperData R) : R :=
  ((footprint data
    + 4 * R_sqrt.sqrt (footprint data) * overhang data / 12)
   * pitchMultipliers (pitch data) * 1.125)%R.

(** A house of 1500 sq ft with an overhang of 18 in, at a given pitch. *)
Definition house1500 {number : Type} {Num : JSNumber number}
    (pitch : PitchType) : RoofSizeHelperData number :=
  {| footprint := lit 1500; overhang := lit 18; pitch := pitch |}.

(** The product of the three multipliers of a request, in real arithmetic:
    the labor multiplier of its complexity, 1.1 for commercial, 0.6 for a
    repair. *)
Definition adjustment (formData : CalculatorFormData R) : R :=
  ((1 + complexityMultipliers (complexity formData) * 0.4)
   * (if RoofingType_eqb (roofingType formData) commercial then 1.1 else 1)
   * (if JobType_eqb (jobType formData) repair then 0.6 else 1))%R.

(** ** lib/roofing-calculations.ts: the material options *)

Definition keys {V : Type} (o : Object V) : list string := map fst o.

(** A value in a template literal: [undefined] prints as such. *)
Definition templateString (v : option string) : string :=
  match v with
  | Some s => s
  | None => "undefined"
  end.

(** [xs.map(f)] for a callback that may throw: the first throw ends it. *)
Fixpoint mapCompletion {A B : Type} (f : A -> Completion B) (xs : list A)
    : Completion (list B) :=
  match xs with
  | [] => Return []
  | x :: xs' =>
      match f x with
      | Throw e => Throw e
      | Return y =>
          match mapCompletion f xs' with
          | Throw e => Throw e
          | Return ys => Return (y :: ys)
          end
      end
  end.

Definition materialLabels (roofingType : RoofingType) : Object string :=
  match roofingType with
  | residential =>
      [ ("asphalt", "Asphalt Shingles");
        ("clay", "Clay/Concrete Tile");
        ("metal", "Metal");
        ("wood", "Wood Shake/Shingles");
        ("slate", "Slate");
        ("membrane", "Flat Membrane (EPDM/TPO)") ]
  | commercial =>
      [ ("tpo", "TPO Membrane");
        ("pvc", "PVC Membrane");
        ("epdm", "EPDM Rubber");
        ("modified", "Modified Bitumen");
        ("bur", "Built-Up Roofing (BUR)");
        ("metal", "Metal");
        ("asphalt", "Asphalt Shingles") ]
  end.

Module MaterialOption.
Record MaterialOption (number : Type) : Type := {
  value : MaterialType;
  label : string;
  costRange : number * number
}.
Arguments value {number} _.
Arguments label {number} _.
Arguments costRange {number} _.
End MaterialOption.
Definition MaterialOption : Type -> Type := MaterialOption.MaterialOption.

Section Options.

Context {number : Type} {Num : JSNumber number}.

(** The conversion of a number to a string in a template literal. *)
Variable toString : number -> string.

(** [getMaterialOptions] (lines 44-53).  [pricing[material][0]] throws a
    [TypeError] when [pricing[material]] is [undefined]. *)
Definition getMaterialOptions (roofingType : RoofingType)
    : Completion (list (MaterialOption number)) :=
  let pricing := materialPricing roofingType in
  let labels := materialLabels roofingType in
  mapCompletion
    (fun material =>
       match get pricing material with
       | None => Throw TypeError
       | Some (low, high) =>
           Return
             {| MaterialOption.value := material;
                MaterialOption.label :=
                  templateString (get labels material) ++ " ($"
                  ++ toString low ++ "-$" ++ toString high ++ "/sq ft)";
                MaterialOption.costRange := (low, high) |}
       end)
    (keys pricing).

End Options.

(** ** The comparison [<] of numbers *)

(** [a < b]; [a > b] is [b < a].  Both are false when an operand is [NaN]. *)
Class JSNumberOrder (number : Type) : Type := {
  ltb : number -> number -> bool
}.

Infix "<?" := ltb : js_scope.

#[global] Instance Binary64_order : JSNumberOrder float := {|
  ltb := PrimFloat.ltb
|}.

Definition Ideal_lt_bool (x y : R) : bool :=
  if Rlt_dec x y then true else false.

#[global] Instance Ideal_order : JSNumberOrder R := {|
  ltb := Ideal_lt_bool
|}.

(** ** components/RoofingCalculator.tsx *)

(** The state of the component and its event handlers.  A handler is a
    function of the state at the event; the toasts it raises are returned
    beside the new state. *)
Module RoofingCalculator.

Record Toast : Type := {
  title : string;
  description : string;
  variant : string
}.

Module ChartItem.
Record ChartItem (number : Type) : Type := {
  name : string;
  value : number;
  color : string
}.
Arguments name {number} _.
Arguments value {number} _.
Arguments color {number} _.
End ChartItem.
Definition ChartItem : Type -> Type := ChartItem.ChartItem.

Definition CHART_COLORS : string * string * string :=
  ("hsl(var(--chart-1))", "hsl(var(--chart-2))", "hsl(var(--chart-3))").

(** The field and value of a call [handleInputChange(field, value)], as the
    controls of the form issue them. *)
Inductive FieldChange : Type :=
| materialField (value : MaterialType)
| jobTypeField (value : JobType)
| complexityField (value : ComplexityType)
| tearoffField (checked : bool)
| permitsField (checked : bool).

Section Component.

Context {number : Type} {Num : JSNumber number} {Ord : JSNumberOrder number}.
Local Open Scope js_scope.

(** [parseFloat] on the text of an input; [NaN] when it is not numeric. *)
Variable parseFloat : string -> number.

Variable toString : number -> string.

(** [a || b] on numbers. *)
Definition orElse (a b : number) : number := if ToBoolean a then a else b.

Record State : Type := {
  formData : CalculatorFormData number;
  roofSizeHelper : RoofSizeHelperData number;
  results : option (CostBreakdown number);
  showResults : bool;
  calculatedRoofSize : option number
}.

(** The initial values of the [useState] calls (lines 33-51). *)
Definition initialFormData : CalculatorFormData number :=
  {| roofingType := residential; roofSize := lit 0; material := EmptyString;
     jobType := new; complexity := Complexity.simple;
     tearoff := false; permits := false |}.

Definition initialRoofSizeHelper : RoofSizeHelperData number :=
  {| footprint := lit 0; overhang := lit 0; pitch := Pitch.flat |}.

Definition initialState : State :=
  {| formData := initialFormData;
     roofSizeHelper := initialRoofSizeHelper;
     results := None;
     showResults := false;
     calculatedRoofSize := None |}.

(** [setFormData(prev => f(prev))] and [setRoofSizeHelper(prev => f(prev))]. *)
Definition setFormData
    (f : CalculatorFormData number -> CalculatorFormData number)
    (st : State) : State :=
  {| formData := f (formData st);
     roofSizeHelper := roofSizeHelper st;
     results := results st;
     showResults := showResults st;
     calculatedRoofSize := calculatedRoofSize st |}.

Definition setRoofSizeHelper
    (f : RoofSizeHelperData number -> RoofSizeHelperData number)
    (st : State) : State :=
  {| formData := formData st;
     roofSizeHelper := f (roofSizeHelper st);
     results := results st;
     showResults := showResults st;
     calculatedRoofSize := calculatedRoofSize st |}.

(** [{ ...prev, field: value }], one field at a time. *)
Definition withRoofingType (type : RoofingType)
    (prev : CalculatorFormData number) : CalculatorFormData number :=
  {| roofingType := type; roofSize := roofSize prev;
     material := material prev; jobType := jobType prev;
     complexity := complexity prev; tearoff := tearoff prev;
     permits := permits prev |}.

Definition withMaterial (m : MaterialType)
    (prev : CalculatorFormData number) : CalculatorFormData number :=
  {| roofingType := roofingType prev; roofSize := roofSize prev;
     material := m; jobType := jobType prev;
     complexity := complexity prev; tearoff := tearoff prev;
     permits := permits prev |}.

Definition withField (change : FieldChange)
    (prev : CalculatorFormData number) : CalculatorFormData number :=
  match change with
  | materialField v => withMaterial v prev
  | jobTypeField v =>
      {| roofingType := roofingType prev; roofSize := roofSize prev;
         material := material prev; jobType := v;
         complexity := complexity prev; tearoff := tearoff prev;
         permits := permits prev |}
  | complexityField v =>
      {| roofingType := roofingType prev; roofSize := roofSize prev;
         material := material prev; jobType := jobType prev;
         complexity := v; tearoff := tearoff prev;
         permits := permits prev |}
  | tearoffField c =>
      {| roofingType := roofingType prev; roofSize := roofSize prev;
         material := material prev; jobType := jobType prev;
         complexity := complexity prev; tearoff := c;
         permits := permits prev |}
  | permitsField c =>
      {| roofingType := roofingType prev; roofSize := roofSize prev;
         material := material prev; jobType := jobType prev;
         complexity := complexity prev; tearoff := tearoff prev;
         permits := c |}
  end.

(** Get material options based on roofing type (line 54). *)
Definition materialOptions (st : State)
    : Completion (list (MaterialOption number)) :=
  getMaterialOptions toString (roofingType (formData st)).

(** Reset material selection when roofing type changes (lines 57-59): the
    body of the effect.  It also runs once on mount, where it leaves the
    initial state, whose material is empty, as it is. *)
Definition resetMaterialEffect (st : State) : State :=
  setFormData (withMaterial EmptyString) st.

(** Lines 61-63. *)
Definition handleRoofingTypeChange (type : RoofingType) (st : State) : State :=
  setFormData (withRoofingType type) st.

(** Lines 65-67. *)
Definition handleInputChange (change : FieldChange) (st : State) : State :=
  setFormData (withField change) st.

(** Lines 69-89. *)
Definition handleRoofSizeChange (value : string) (st : State)
    : State * list Toast :=
  let numValue := orElse (parseFloat value) (lit 0) in
  if numValue <? lit 0 then
    (st,
     [ {| title := "Invalid Input";
          description := "Please enter a positive number";
          variant := "destructive" |} ])
  else if lit 50000 <? numValue then
    (setFormData (fun prev => withRoofSize prev (lit 50000)) st,
     [ {| title := "Input Too Large";
          description := "Maximum roof size is 50,000 sq ft";
          variant := "destructive" |} ])
  else
    (setFormData (fun prev => withRoofSize prev numValue) st, []).

(** Lines 91-106.  A throw of [calculateRoofingCost] leaves the handler. *)
Definition calculateCost (st : State) : Completion (State * list Toast) :=
  if negb (ToBoolean (roofSize (formData st)))
     || negb (stringToBoolean (material (formData st)))
  then
    Return
      (st,
       [ {| title := "Missing Information";
            description := "Please fill in roof size and select a material";
            variant := "destructive" |} ])
  else
    match calculateRoofingCost (formData st) with
    | Throw e => Throw e
    | Return None => Return (st, [])
    | Return (Some costBreakdown) =>
        Return
          ({| formData := formData st;
              roofSizeHelper := roofSizeHelper st;
              results := Some costBreakdown;
              showResults := true;
              calculatedRoofSize := calculatedRoofSize st |},
           [])
    end.

(** Lines 108-126. *)
Definition resetForm (st : State) : State :=
  {| formData := initialFormData;
     roofSizeHelper := initialRoofSizeHelper;
     results := None;
     showResults := false;
     calculatedRoofSize := None |}.

(** Lines 128-141. *)
Definition calculateRoofSizeHelper (st : State) : State * list Toast :=
  if negb (ToBoolean (footprint (roofSizeHelper st))) then
    (st,
     [ {| title := "Missing Information";
          description := "Please enter the home footprint";
          variant := "destructive" |} ])
  else
    let calculatedSize := calculateRoofSize (roofSizeHelper st) in
    ({| formData := withRoofSize (formData st) calculatedSize;
        roofSizeHelper := roofSizeHelper st;
        results := results st;
        showResults := showResults st;
        calculatedRoofSize := Some calculatedSize |},
     []).

(** Prepare chart data (lines 143-148). *)
Definition chartData (st : State) : list (ChartItem number) :=
  match results st with
  | Some results =>
      filter (fun item => lit 0 <? ChartItem.value item)
        [ {| ChartItem.name := "Materials";
             ChartItem.value := materials results;
             ChartItem.color := fst (fst CHART_COLORS) |};
          {| ChartItem.name := "Labor";
             ChartItem.value := labor results;
             ChartItem.color := snd (fst CHART_COLORS) |};
          {| ChartItem.name := "Add-ons";
             ChartItem.value := addons results;
             ChartItem.color := snd CHART_COLORS |} ]
  | None => []
  end.

(** The inline handlers of the helper's inputs (lines 467-501). *)
Definition changeFootprint (value : string) (st : State) : State :=
  setRoofSizeHelper
    (fun prev =>
       {| footprint := orElse (parseFloat value) (lit 0);
          overhang := overhang prev; pitch := pitch prev |})
    st.

Definition changeOverhang (value : string) (st : State) : State :=
  setRoofSizeHelper
    (fun prev =>
       {| footprint := footprint prev;
          overhang := orElse (parseFloat value) (lit 0);
          pitch := pitch prev |})
    st.

Definition changePitch (value : PitchType) (st : State) : State :=
  setRoofSizeHelper
    (fun prev =>
       {| footprint := footprint prev; overhang := overhang prev;
          pitch := value |})
    st.

(** The events of the form, each with the handler its control is bound
    to. *)
Inductive Event : Type :=
| clickRoofingType (type : RoofingType)
| changeRoofSize (value : string)
| changeField (change : FieldChange)
| clickCalculate
| clickReset
| inputFootprint (value : string)
| inputOverhang (value : string)
| selectPitch (value : PitchType)
| clickCalculateRoofSize.

Definition handle (ev : Event) (st : State) : Completion (State * list Toast) :=
  match ev with
  | clickRoofingType type => Return (handleRoofingTypeChange type st, [])
  | changeRoofSize value => Return (handleRoofSizeChange value st)
  | changeField change => Return (handleInputChange change st, [])
  | clickCalculate => calculateCost st
  | clickReset => Return (resetForm st, [])
  | inputFootprint value => Return (changeFootprint value st, [])
  | inputOverhang value => Return (changeOverhang value st, [])
  | selectPitch value => Return (changePitch value st, [])
  | clickCalculateRoofSize => Return (calculateRoofSizeHelper st)
  end.

(** One event: its handler updates the state, then the effect of lines 57-59
    runs if its dependency [formData.roofingType] has changed. *)
Definition dispatch (ev : Event) (st : State)
    : Completion (State * list Toast) :=
  match handle ev st with
  | Throw e => Throw e
  | Return (st', toasts) =>
      if RoofingType_eqb (roofingType (formData st))
           (roofingType (formData st'))
      then Return (st', toasts)
      else Return (resetMaterialEffect st', toasts)
  end.

(** The material select only lists the options of the current roofing
    type (lines 229-233); every other event is always available. *)
Definition offered (ev : Event) (st : State) : Prop :=
  match ev with
  | changeField (materialField m) =>
      exists options,
        materialOptions st = Return options /\
        In m (map MaterialOption.value options)
  | _ => True
  end.

(** The material select shows its placeholder or a material that has an
    entry for the current roofing type. *)
Definition materialSelectable (st : State) : Prop :=
  material (formData st) = EmptyString \/
  exists entry : number * number,
    get (materialPricing (roofingType (formData st)))
      (material (formData st)) = Some entry.

(** The states the form can be in. *)
Inductive reachable : State -> Prop :=
| reachable_initial : reachable initialState
| reachable_dispatch (ev : Event) (st st' : State) (toasts : list Toast) :
    reachable st ->
    offered ev st ->
    dispatch ev st = Return (st', toasts) ->
    reachable st'.

End Component.

End RoofingCalculator.

(** ** Sample states of the form *)

(** A [parseFloat] for the text "1200", and a [toString] for sample
    labels. *)
Definition sampleParseFloat (value : string) : float := 1200%float.

Definition sampleToString (x : float) : string := "n".

(** The form after a click on "commercial". *)
Definition commercialClicked : @RoofingCalculator.State float :=
  RoofingCalculator.setFormData
    (RoofingCalculator.withRoofingType commercial)
    RoofingCalculator.initialState.

(** The form after the selection of TPO. *)
Definition tpoSelected : @RoofingCalculator.State float :=
  RoofingCalculator.setFormData
    (RoofingCalculator.withMaterial "tpo") commercialClicked.

(** The form after the entry of 1200 as the roof size. *)
Definition tpoSized : @RoofingCalculator.State float :=
  RoofingCalculator.setFormData
    (fun prev => withRoofSize prev 1200%float) tpoSelected.

(** The helper with a footprint of -5. *)
Definition negativeFootprintEntered : @RoofingCalculator.State float :=
  RoofingCalculator.setRoofSizeHelper
    (fun prev =>
       {| footprint := (-5)%float; overhang := overhang prev;
          pitch := pitch prev |})
    RoofingCalculator.initialState.

(** The options of a commercial roof under [sampleToString], and the first
    of them. *)
Definition sampleCommercialOptions : list (MaterialOption float) :=
  match getMaterialOptions sampleToString commercial with
  | Return options => options
  | Throw _ => []
  end.

Definition tpoOption : MaterialOption float :=
  {| MaterialOption.value := "tpo";
     MaterialOption.label := "TPO Membrane ($n-$n/sq ft)";
     MaterialOption.costRange := (lit 4, lit 8) |}.

(** Sample states over the reals: asphalt selected; then 1200 entered as
    the size; a size of -36 with asphalt selected; a footprint of 60,000 in
    the helper; and the estimate of [asphaltWithPermits] on display. *)
Definition asphaltSelectedR : @RoofingCalculator.State R :=
  RoofingCalculator.setFormData
    (RoofingCalculator.withMaterial "asphalt")
    RoofingCalculator.initialState.

Definition asphaltSizedR : @RoofingCalculator.State R :=
  RoofingCalculator.setFormData
    (fun prev => withRoofSize prev 1200%R) asphaltSelectedR.

Definition negativeSizeR : @RoofingCalculator.State R :=
  RoofingCalculator.setFormData
    (fun prev => withRoofSize prev (-36)%R) asphaltSelectedR.

Definition largeFootprintR : @RoofingCalculator.State R :=
  RoofingCalculator.setRoofSizeHelper
    (fun prev =>
       {| footprint := 60000%R; overhang := 0%R; pitch := pitch prev |})
    RoofingCalculator.initialState.

Definition permitsBreakdownR : CostBreakdown R :=
  finalTotals (adjustedBase asphaltWithPermits (lit 5) (lit 10))
    (calculateAddons (lit 1000) new false true).

Definition estimateShownR : @RoofingCalculator.State R :=
  {| RoofingCalculator.formData := asphaltWithPermits;
     RoofingCalculator.roofSizeHelper :=
       RoofingCalculator.initialRoofSizeHelper;
     RoofingCalculator.results := Some permitsBreakdownR;
     RoofingCalculator.showResults := true;
     RoofingCalculator.calculatedRoofSize := None |}.

(** ** Rounded arithmetic *)

(** A third reading of the numbers, between the reals and binary64: every
    literal and every operation is the exact one followed by a rounding
    [rnd].  Comparisons and [Math.round] are exact. *)
Module Rounded.

Definition number (rnd : R -> R) : JSNumber R := {|
  lit := fun q => rnd (Q2R q);
  add := fun x y => rnd (x + y)%R;
  mul := fun x y => rnd (x * y)%R;
  div := fun x y => rnd (x / y)%R;
  leb := Ideal.le_bool;
  ToBoolean := Ideal.to_boolean;
  Math_sqrt := fun x => rnd (R_sqrt.sqrt x);
  Math_round := Ideal.round
|}.

(** The standard model of floating-point arithmetic: a rounding changes a
    value by at most the fraction [u] of it.  Rounding to the nearest
    binary64 meets it with [u = 2^-53] wherever the result neither
    underflows nor overflows; the identity meets it with [u = 0]. *)
Definition standard (u : R) (rnd : R -> R) : Prop :=
  (0 <= u <= / 4)%R /\
  forall x : R, (Rabs (rnd x - x) <= u * Rabs x)%R.

(** [x] is [y], not negative, up to [n] roundings. *)
Definition approx (u : R) (n : nat) (x y : R) : Prop :=
  (0 <= y)%R /\ ((1 - u) ^ n * y <= x <= (1 + u) ^ n * y)%R.

(** [x] and [y] agree up to [n] roundings each. *)
Definition agree (u : R) (n : nat) (x y : R) : Prop :=
  ((1 - u) ^ n * x <= (1 + u) ^ n * y)%R /\
  ((1 - u) ^ n * y <= (1 + u) ^ n * x)%R.

(** The three base values, each up to [n] roundings. *)
Definition approxBase (u : R) (n : nat) (b b' : Base R) : Prop :=
  approx u n (baseLow b) (baseLow b') /\
  approx u n (baseMid b) (baseMid b') /\
  approx u n (baseHigh b) (baseHigh b').

End Rounded.

(** The multipliers of steps 3, 4 and 6 of the specification, applied to a
    base value in that order: the labor factor of the complexity, then the
    commercial premium, then the repair reduction. *)
Definition multiplierChain {number : Type} {Num : JSNumber number}
    (rt : RoofingType) (cx : ComplexityType) (jt : JobType) (x : number)
    : number :=
  let x := mul x (add (lit 1) (mul (complexityMultipliers cx) (lit 0.4))) in
  let x := if RoofingType_eqb rt commercial then mul x (lit 1.1) else x in
  let x := if JobType_eqb jt repair then mul x (lit 0.6) else x in
  x.

(** Commercial TPO, new, complex, no add-on, for a given size. *)
Definition tpoComplexPlain {number : Type} {Num : JSNumber number}
    (size : number) : CalculatorFormData number :=
  {| roofingType := commercial; roofSize := size; material := "tpo";
     jobType := new; complexity := Complexity.complex;
     tearoff := false; permits := false |}.

(** A rounding that always rounds up, by the fraction [2^-53]. *)
Definition roundUp (x : R) : R := (x * (1 + / 9007199254740992))%R.

(** * Properties *)

(** ** Facts that hold at every number type *)

Section Generic.

Context {number : Type} {Num : JSNumber number}.
Local Open Scope js_scope.

(** The empty string is the key of no catalog entry. *)
Lemma get_materialPricing_empty (rt : RoofingType) :
  get (materialPricing rt) EmptyString = None.
Proof. destruct rt; reflexivity. Qed.

Lemma get_materialPricing_nonempty (rt : RoofingType) (m : string)
    (entry : number * number) :
  get (materialPricing rt) m = Some entry -> stringToBoolean m = true.
Proof.
  intros Hget. unfold stringToBoolean.
  destruct (String.eqb_spec m EmptyString) as [-> | _]; [| reflexivity].
  rewrite get_materialPricing_empty in Hget. discriminate.
Qed.

(** The guard of [calculateRoofingCost]: a falsy or non-positive size, or an
    empty material, ends the call with [null]. *)
Lemma calculateRoofingCost_guard (formData : CalculatorFormData number) :
  ToBoolean (roofSize formData) = false \/
  material formData = EmptyString \/
  (roofSize formData <=? lit 0) = true ->
  calculateRoofingCost formData = Return None.
Proof.
  intros H. unfold calculateRoofingCost.
  destruct H as [H | [H | H]]; rewrite H; cbn.
  - reflexivity.
  - rewrite orb_true_r. reflexivity.
  - rewrite orb_true_r. reflexivity.
Qed.

(** Past the guard, a material with no entry in the category's catalog makes
    the destructuring throw. *)
Lemma calculateRoofingCost_no_entry (formData : CalculatorFormData number) :
  ToBoolean (roofSize formData) = true ->
  (roofSize formData <=? lit 0) = false ->
  material formData <> EmptyString ->
  get (materialPricing (roofingType formData)) (material formData) = None ->
  calculateRoofingCost formData = Throw TypeError.
Proof.
  intros Htrue Hpos Hmat Hget. unfold calculateRoofingCost.
  rewrite Htrue, Hpos, Hget. unfold stringToBoolean.
  destruct (String.eqb_spec (material formData) EmptyString) as [E | _];
    [contradiction | reflexivity].
Qed.

(** Past the guard, a material of the catalog gives the breakdown, computed
    by the steps in the order of the source: complexity, commercial
    adjustment, repair modifier, then the addition of the add-ons. *)
Lemma calculateRoofingCost_entry (formData : CalculatorFormData number)
    (lowCost highCost : number) :
  ToBoolean (roofSize formData) = true ->
  (roofSize formData <=? lit 0) = false ->
  get (materialPricing (roofingType formData)) (material formData)
    = Some (lowCost, highCost) ->
  calculateRoofingCost formData =
    Return (Some (finalTotals
                    (adjustedBase formData lowCost highCost)
                    (calculateAddons (roofSize formData) (jobType formData)
                       (tearoff formData) (permits formData)))).
Proof.
  intros Htrue Hpos Hget. unfold calculateRoofingCost.
  rewrite Htrue, Hpos, (get_materialPricing_nonempty _ _ _ Hget), Hget.
  reflexivity.
Qed.

(** The guard of [calculateRoofSize]. *)
Lemma calculateRoofSize_falsy_or_nonpositive
    (data : RoofSizeHelperData number) :
  ToBoolean (footprint data) = false \/ (footprint data <=? lit 0) = true ->
  calculateRoofSize data = lit 0.
Proof.
  intros H. unfold calculateRoofSize.
  destruct H as [H | H]; rewrite H; [| rewrite orb_true_r]; reflexivity.
Qed.

End Generic.

(** ** Facts about the two number types *)

Lemma Ideal_leb_true (x y : R) : (x <= y)%R -> leb x y = true.
Proof.
  intros H. cbn. unfold Ideal.le_bool.
  destruct (Rle_dec x y); [reflexivity | contradiction].
Qed.

Lemma Ideal_leb_false (x y : R) : (y < x)%R -> leb x y = false.
Proof.
  intros H. cbn. unfold Ideal.le_bool.
  destruct (Rle_dec x y); [lra | reflexivity].
Qed.

Lemma Ideal_ToBoolean_true (x : R) : x <> 0%R -> ToBoolean x = true.
Proof.
  intros H. cbn. unfold Ideal.to_boolean.
  destruct (Req_dec_T x 0); [contradiction | reflexivity].
Qed.

Lemma Ideal_lit_0 : lit (number := R) 0 = 0%R.
Proof. cbn. unfold Q2R. cbn. lra. Qed.

(** Unfolds the operations of [Ideal] down to real arithmetic. *)
Ltac ideal :=
  cbn [lit add mul div Math_sqrt Math_round Ideal.number] in *;
  unfold Q2R in *; cbn [Qnum Qden] in *.

(** A positive real size passes the guard. *)
Lemma Ideal_positive_size (x : R) :
  (0 < x)%R -> ToBoolean x = true /\ leb x (lit 0) = false.
Proof.
  intros H. split.
  - apply Ideal_ToBoolean_true. lra.
  - apply Ideal_leb_false. rewrite Ideal_lit_0. exact H.
Qed.

(** Unfolds the steps of [calculateRoofingCost]. *)
Ltac steps :=
  unfold adjustment, finalTotals, adjustedBase, applyJobType,
    applyCommercial, applyComplexity, calculateAddons, baseCost, scale,
    complexityMultipliers;
  cbn [materials labor addons totalLow totalHigh totalMid
       baseLow baseMid baseHigh
       roofingType roofSize material jobType complexity tearoff permits
       RoofingType_eqb JobType_eqb andb].

(** A valid request over the reals returns the breakdown of its steps. *)
Lemma Ideal_calculateRoofingCost (formData : CalculatorFormData R)
    (lowCost highCost : R) :
  (0 < roofSize formData)%R ->
  get (materialPricing (roofingType formData)) (material formData)
    = Some (lowCost, highCost) ->
  calculateRoofingCost formData =
    Return (Some (finalTotals
                    (adjustedBase formData lowCost highCost)
                    (calculateAddons (roofSize formData) (jobType formData)
                       (tearoff formData) (permits formData)))).
Proof.
  intros Hsize Hget. destruct (Ideal_positive_size _ Hsize) as [Ht Hp].
  now apply calculateRoofingCost_entry.
Qed.

(** Every price pair of the catalog is positive and ordered. *)
Lemma materialPricing_ordered (rt : RoofingType) (m : string)
    (lowCost highCost : R) :
  get (materialPricing rt) m = Some (lowCost, highCost) ->
  (0 < lowCost <= highCost)%R.
Proof.
  destruct rt; cbn [materialPricing get]; intros H;
    repeat (destruct (String.eqb m _);
            [injection H as <- <-; ideal; lra |]);
    discriminate.
Qed.

(** The three multiplicative steps amount to one positive factor. *)
Lemma adjustedBase_closed_form (formData : CalculatorFormData R)
    (lowCost highCost : R) :
  let b := adjustedBase formData lowCost highCost in
  (baseLow b = roofSize formData * lowCost * adjustment formData /\
   baseMid b
     = roofSize formData * ((lowCost + highCost) / 2) * adjustment formData /\
   baseHigh b = roofSize formData * highCost * adjustment formData)%R.
Proof.
  destruct formData as [rt size m jt cx tear perm].
  destruct rt, jt, cx; cbv zeta; steps; ideal; repeat split; lra.
Qed.

Lemma adjustment_pos (formData : CalculatorFormData R) :
  (0 < adjustment formData)%R.
Proof.
  destruct formData as [rt size m jt cx tear perm].
  destruct rt, jt, cx; steps; ideal; lra.
Qed.

(** The request does not enter [adjustment] through its size. *)
Lemma adjustment_withRoofSize (formData : CalculatorFormData R) (size : R) :
  adjustment (withRoofSize formData size) = adjustment formData.
Proof. reflexivity. Qed.

(** The add-ons over the reals. *)
Lemma Ideal_calculateAddons (size : R) (jt : JobType) (tear perm : bool) :
  calculateAddons size jt tear perm =
    ((if tear && JobType_eqb jt replacement then size * 1.5 else 0)
     + (if perm then 500 else 0))%R.
Proof.
  unfold calculateAddons.
  destruct (tear && JobType_eqb jt replacement), perm; ideal; lra.
Qed.

(** [Math.round] over the reals, from a bracket of the argument. *)
Lemma Ideal_round (x : R) (z : Z) :
  (IZR z - / 2 <= x < IZR z + / 2)%R -> Math_round x = IZR z.
Proof.
  intros H. cbn. unfold Ideal.round. f_equal. apply Zfloor_eq. lra.
Qed.

(** * The claims *)

(** ** Insufficient input *)

(** C1, as the code has it: at every number type, [calculateRoofingCost]
    returns [null], and does not throw, when the area is at most 0 or the
    material is the empty string; and it does not throw when the material
    has an entry in the catalog of the category.  Membership of the material
    in that catalog is not among the conditions of the guard. *)
Theorem calculateRoofingCost_insufficient_input
    {number : Type} {Num : JSNumber number}
    (formData : CalculatorFormData number) :
  (leb (roofSize formData) (lit 0) = true \/ material formData = EmptyString ->
   calculateRoofingCost formData = Return None) /\
  (forall entry : number * number,
     get (materialPricing (roofingType formData)) (material formData)
       = Some entry ->
     exists r : option (CostBreakdown number),
       calculateRoofingCost formData = Return r).
Proof.
  split.
  - intros [H | H]; apply calculateRoofingCost_guard; auto.
  - intros [lowCost highCost] Hget. unfold calculateRoofingCost.
    rewrite Hget.
    destruct (negb (ToBoolean (roofSize formData))
              || negb (stringToBoolean (material formData))
              || leb (roofSize formData) (lit 0));
      eexists; reflexivity.
Qed.

Lemma calculateRoofingCost_insufficient_input_witness :
  ((leb (roofSize (withRoofSize asphaltWithPermits (-5)%float)) (lit 0) = true
    \/ material (withRoofSize asphaltWithPermits (-5)%float) = EmptyString) /\
   calculateRoofingCost (withRoofSize asphaltWithPermits (-5)%float)
   = Return None) /\
  (get (materialPricing (number := float) residential) "asphalt"
     = Some (lit 5, lit 10) /\
   exists r : option (CostBreakdown float),
     calculateRoofingCost asphaltWithPermits = Return r).
Proof.
  split; split.
  - left; reflexivity.
  - apply (proj1 (calculateRoofingCost_insufficient_input
                    (withRoofSize asphaltWithPermits (-5)%float))).
    left; reflexivity.
  - reflexivity.
  - apply (proj2 (calculateRoofingCost_insufficient_input
                    (asphaltWithPermits (number := float)))
             (lit 5, lit 10)).
    reflexivity.
Defined.

(** C1, as stated, fails: "tpo" is a commercial material, absent from the
    residential catalog, and the request for it with category residential
    and area 1000 throws a [TypeError] instead of returning [null], in
    binary64 and over the reals alike. *)
Lemma calculateRoofingCost_absent_material_throws :
  get (materialPricing (number := float) commercial) "tpo"
    = Some (lit 4, lit 8) /\
  get (materialPricing (number := float) residential) "tpo" = None /\
  calculateRoofingCost (number := float) tpoOnResidential = Throw TypeError /\
  calculateRoofingCost (number := R) tpoOnResidential = Throw TypeError /\
  calculateRoofingCost (number := float) tpoOnResidential <> Return None.
Proof.
  repeat split; try reflexivity.
  - apply calculateRoofingCost_no_entry; cbn [tpoOnResidential roofSize
      material roofingType].
    + apply Ideal_ToBoolean_true. ideal. lra.
    + apply Ideal_leb_false. ideal. lra.
    + discriminate.
    + reflexivity.
  - discriminate.
Qed.

(** ** The breakdown *)

(** C3: at every number type, a request that passes the guard with a material
    of the category's catalog returns a breakdown whose [materials] is
    [totalMid * 0.6], whose [labor] is [totalMid * 0.4], and whose [addons] is
    the value computed by the add-ons step. *)
Theorem breakdown_derived_from_totalMid
    {number : Type} {Num : JSNumber number}
    (formData : CalculatorFormData number) (lowCost highCost : number) :
  ToBoolean (roofSize formData) = true ->
  leb (roofSize formData) (lit 0) = false ->
  get (materialPricing (roofingType formData)) (material formData)
    = Some (lowCost, highCost) ->
  exists b : CostBreakdown number,
    calculateRoofingCost formData = Return (Some b) /\
    materials b = mul (totalMid b) (lit 0.6) /\
    labor b = mul (totalMid b) (lit 0.4) /\
    addons b = calculateAddons (roofSize formData) (jobType formData)
                 (tearoff formData) (permits formData).
Proof.
  intros Ht Hp Hget.
  rewrite (calculateRoofingCost_entry _ _ _ Ht Hp Hget).
  eexists; split; [reflexivity |].
  repeat split.
Qed.

Lemma breakdown_derived_from_totalMid_witness :
  ToBoolean (roofSize (tpoComplexWithPermits (number := float))) = true /\
  leb (roofSize (tpoComplexWithPermits (number := float))) (lit 0) = false /\
  get (materialPricing (number := float) commercial) "tpo"
    = Some (lit 4, lit 8) /\
  exists b : CostBreakdown float,
    calculateRoofingCost tpoComplexWithPermits = Return (Some b) /\
    materials b = mul (totalMid b) (lit 0.6) /\
    labor b = mul (totalMid b) (lit 0.4) /\
    addons b = calculateAddons (lit 1000) new false true.
Proof.
  repeat (split; [reflexivity |]).
  apply (breakdown_derived_from_totalMid
           (tpoComplexWithPermits (number := float)) (lit 4) (lit 8));
    reflexivity.
Defined.

(** In real arithmetic, where no operation rounds: for every valid request
    [materials + labor] is [totalMid], so that [materials + labor + addons]
    is [totalMid + addons]; it is [totalMid] exactly when the add-ons are
    zero, that is with no permits and no tear-off on a replacement. *)
Theorem breakdown_sum (formData : CalculatorFormData R)
    (lowCost highCost : R) :
  (0 < roofSize formData)%R ->
  get (materialPricing (roofingType formData)) (material formData)
    = Some (lowCost, highCost) ->
  exists b : CostBreakdown R,
    calculateRoofingCost formData = Return (Some b) /\
    (materials b + labor b = totalMid b)%R /\
    (materials b + labor b + addons b = totalMid b + addons b)%R /\
    ((materials b + labor b + addons b = totalMid b)%R <->
     permits formData = false /\
     tearoff formData && JobType_eqb (jobType formData) replacement = false).
Proof.
  intros Hsize Hget.
  rewrite (Ideal_calculateRoofingCost _ _ _ Hsize Hget).
  eexists; split; [reflexivity |].
  set (base := adjustedBase formData lowCost highCost).
  cbn [finalTotals materials labor addons totalMid].
  rewrite Ideal_calculateAddons.
  assert (Hsplit : forall t : R, (t * lit 0.6 + t * lit 0.4)%js = t)
    by (intros t; ideal; lra).
  rewrite Hsplit. split; [reflexivity |]. split; [reflexivity |].
  destruct (permits formData),
    (tearoff formData && JobType_eqb (jobType formData) replacement);
    cbn [add mul Ideal.number]; split;
    try (intros Heq; exfalso; lra);
    try (intros [? ?]; discriminate).
  - intros _. split; reflexivity.
  - intros _. lra.
Qed.



(** The two residential scenarios, evaluated in binary64: asphalt (price 5
    to 10), 1000 sq ft, new, simple gives 5000, 7500, 10000 with materials
    4500 and labor 3000; as a replacement with tear-off the add-ons are
    1500 and the totals 6500, 9000, 11500. *)
Lemma asphalt_scenarios_binary64 :
  calculateRoofingCost (number := float) asphaltPlain =
    Return (Some {| materials := 4500; labor := 3000; addons := 0;
                    totalLow := 5000; totalHigh := 10000;
                    totalMid := 7500 |}%float) /\
  exists b : CostBreakdown float,
    calculateRoofingCost
      {| roofingType := residential; roofSize := 1000%float;
         material := "asphalt"; jobType := replacement;
         complexity := Complexity.simple; tearoff := true;
         permits := false |} = Return (Some b) /\
    addons b = 1500%float /\ totalLow b = 6500%float /\
    totalMid b = 9000%float /\ totalHigh b = 11500%float.
Proof.
  split; [vm_compute; reflexivity |].
  eexists; repeat split; vm_compute; reflexivity.
Qed.

(** ** The totals *)

(** C4, over the reals: for every valid request, the price pairs of the
    catalog being ordered, [totalLow <= totalMid <= totalHigh]. *)
Theorem totals_ordered (formData : CalculatorFormData R)
    (lowCost highCost : R) :
  (0 < roofSize formData)%R ->
  get (materialPricing (roofingType formData)) (material formData)
    = Some (lowCost, highCost) ->
  exists b : CostBreakdown R,
    calculateRoofingCost formData = Return (Some b) /\
    (totalLow b <= totalMid b <= totalHigh b)%R.
Proof.
  intros Hsize Hget.
  rewrite (Ideal_calculateRoofingCost _ _ _ Hsize Hget).
  eexists; split; [reflexivity |].
  pose proof (materialPricing_ordered _ _ _ _ Hget) as [Hlow Hle].
  pose proof (adjustedBase_closed_form formData lowCost highCost)
    as (HL & HM & HH).
  pose proof (adjustment_pos formData) as Hk.
  cbn [finalTotals totalLow totalMid totalHigh add Ideal.number].
  cbv zeta in HL, HM, HH. rewrite HL, HM, HH.
  set (k := adjustment formData) in *.
  set (size := roofSize formData) in *.
  assert (Hsk : (0 < size * k)%R) by (apply Rmult_lt_0_compat; assumption).
  split; apply Rplus_le_compat_r; nra.
Qed.

Lemma totals_ordered_witness :
  (0 < roofSize (tpoComplexWithPermits (number := R)))%R /\
  get (materialPricing (number := R) commercial) "tpo"
    = Some (lit 4, lit 8) /\
  exists b : CostBreakdown R,
    calculateRoofingCost tpoComplexWithPermits = Return (Some b) /\
    (totalLow b <= totalMid b <= totalHigh b)%R.
Proof.
  assert (Hsize : (0 < roofSize (tpoComplexWithPermits (number := R)))%R)
    by (cbn [tpoComplexWithPermits roofSize]; ideal; lra).
  split; [exact Hsize |]. split; [reflexivity |].
  exact (totals_ordered tpoComplexWithPermits (lit 4) (lit 8) Hsize eq_refl).
Defined.

(** C6, over the reals: for every valid request the add-ons are [area * 1.5]
    for a replacement with tear-off, else 0, plus 500 with permits, else 0;
    each total is the base value times the factor of the three multipliers,
    plus the add-ons, which no multiplier touches. *)
Theorem addons_added_unscaled (formData : CalculatorFormData R)
    (lowCost highCost : R) :
  (0 < roofSize formData)%R ->
  get (materialPricing (roofingType formData)) (material formData)
    = Some (lowCost, highCost) ->
  exists b : CostBreakdown R,
    calculateRoofingCost formData = Return (Some b) /\
    (addons b =
       (if JobType_eqb (jobType formData) replacement && tearoff formData
        then roofSize formData * 1.5 else 0)
       + (if permits formData then 500 else 0))%R /\
    (totalLow b
       = roofSize formData * lowCost * adjustment formData + addons b)%R /\
    (totalMid b
       = roofSize formData * ((lowCost + highCost) / 2) * adjustment formData
         + addons b)%R /\
    (totalHigh b
       = roofSize formData * highCost * adjustment formData + addons b)%R.
Proof.
  intros Hsize Hget.
  rewrite (Ideal_calculateRoofingCost _ _ _ Hsize Hget).
  eexists; split; [reflexivity |].
  pose proof (adjustedBase_closed_form formData lowCost highCost)
    as (HL & HM & HH).
  cbv zeta in HL, HM, HH.
  cbn [finalTotals addons totalLow totalMid totalHigh add Ideal.number].
  rewrite HL, HM, HH, Ideal_calculateAddons, (andb_comm (tearoff formData)).
  repeat split.
Qed.

Lemma addons_added_unscaled_witness :
  (0 < roofSize (tpoComplexWithPermits (number := R)))%R /\
  get (materialPricing (number := R) commercial) "tpo"
    = Some (lit 4, lit 8) /\
  exists b : CostBreakdown R,
    calculateRoofingCost tpoComplexWithPermits = Return (Some b) /\
    (addons b = 0 + 500)%R /\
    (totalLow b
       = lit 1000 * lit 4 * adjustment tpoComplexWithPermits + addons b)%R /\
    (totalMid b
       = lit 1000 * ((lit 4 + lit 8) / 2) * adjustment tpoComplexWithPermits
         + addons b)%R /\
    (totalHigh b
       = lit 1000 * lit 8 * adjustment tpoComplexWithPermits + addons b)%R.
Proof.
  assert (Hsize : (0 < roofSize (tpoComplexWithPermits (number := R)))%R)
    by (cbn [tpoComplexWithPermits roofSize]; ideal; lra).
  split; [exact Hsize |]. split; [reflexivity |].
  exact (addons_added_unscaled
           tpoComplexWithPermits (lit 4) (lit 8) Hsize eq_refl).
Defined.

(** In real arithmetic, where no operation rounds: commercial TPO (price 4
    to 8), 1000 sq ft, complex, new, with permits has the mid base value
    6000, 6960 after the labor multiplier 1.16, 7656 after the commercial
    1.10 and unchanged by the repair step; with the 500 of add-ons,
    [totalMid] is 8156. *)
Theorem commercial_tpo_scenario :
  let lowCost : R := lit 4 in
  let highCost : R := lit 8 in
  let s1 := baseCost (lit 1000) lowCost highCost in
  let s2 := applyComplexity Complexity.complex s1 in
  let s3 := applyCommercial commercial s2 in
  let s4 := applyJobType new s3 in
  let a := calculateAddons (lit 1000) new false true in
  get (materialPricing commercial) "tpo" = Some (lowCost, highCost) /\
  (lowCost = 4 /\ highCost = 8)%R /\
  (baseMid s1 = 6000)%R /\
  (add (lit 1) (mul (complexityMultipliers Complexity.complex) (lit 0.4))
   = 1.16)%R /\
  (baseMid s2 = 6960)%R /\
  (baseMid s3 = 7656)%R /\
  (baseMid s4 = 7656)%R /\
  (a = 500)%R /\
  calculateRoofingCost tpoComplexWithPermits
    = Return (Some (finalTotals s4 a)) /\
  (totalMid (finalTotals s4 a) = 8156)%R.
Proof.
  cbv zeta.
  split; [reflexivity |].
  split; [split; ideal; lra |].
  assert (Hsize : (0 < roofSize (tpoComplexWithPermits (number := R)))%R)
    by (cbn [tpoComplexWithPermits roofSize]; ideal; lra).
  rewrite (Ideal_calculateRoofingCost _ (lit 4) (lit 8) Hsize eq_refl).
  unfold tpoComplexWithPermits; steps; ideal.
  repeat split; try reflexivity; lra.
Qed.

(** The same scenario in binary64: the steps round, and [totalMid] is the
    float two units in the last place above 8156. *)
Lemma commercial_tpo_scenario_binary64 :
  exists b : CostBreakdown float,
    calculateRoofingCost tpoComplexWithPermits = Return (Some b) /\
    totalMid b = 8156.0000000000018%float /\
    PrimFloat.ltb (PrimFloat.abs (totalMid b - 8156)) 1e-11 = true.
Proof.
  eexists; split; [vm_compute; reflexivity |].
  split; vm_compute; reflexivity.
Qed.

(** In real arithmetic, where no operation rounds: without tear-off and
    permits the estimate is homogeneous in the area; scaling the area by
    [k > 0] scales the three totals, [materials] and [labor] by [k], with no
    cap on the area. *)
Theorem homogeneous_in_area (formData : CalculatorFormData R)
    (lowCost highCost a k : R) :
  tearoff formData = false ->
  permits formData = false ->
  get (materialPricing (roofingType formData)) (material formData)
    = Some (lowCost, highCost) ->
  (0 < a)%R -> (0 < k)%R ->
  exists b bk : CostBreakdown R,
    calculateRoofingCost (withRoofSize formData a) = Return (Some b) /\
    calculateRoofingCost (withRoofSize formData (k * a)%R)
      = Return (Some bk) /\
    (totalLow bk = k * totalLow b)%R /\
    (totalMid bk = k * totalMid b)%R /\
    (totalHigh bk = k * totalHigh b)%R /\
    (materials bk = k * materials b)%R /\
    (labor bk = k * labor b)%R.
Proof.
  intros Htear Hperm Hget Ha Hk.
  assert (Hka : (0 < k * a)%R) by (apply Rmult_lt_0_compat; assumption).
  rewrite (Ideal_calculateRoofingCost (withRoofSize formData a)
             lowCost highCost Ha Hget).
  rewrite (Ideal_calculateRoofingCost (withRoofSize formData (k * a)%R)
             lowCost highCost Hka Hget).
  do 2 eexists; split; [reflexivity |]; split; [reflexivity |].
  pose proof (adjustedBase_closed_form (withRoofSize formData a)
                lowCost highCost) as (HL & HM & HH).
  pose proof (adjustedBase_closed_form (withRoofSize formData (k * a)%R)
                lowCost highCost) as (HLk & HMk & HHk).
  cbv zeta in HL, HM, HH, HLk, HMk, HHk.
  rewrite adjustment_withRoofSize in HL, HM, HH, HLk, HMk, HHk.
  cbn [finalTotals materials labor totalLow totalMid totalHigh
       withRoofSize roofSize jobType tearoff permits] in *.
  rewrite HL, HM, HH, HLk, HMk, HHk, Htear, Hperm.
  unfold calculateAddons. cbn [andb]. ideal.
  set (c := adjustment formData).
  repeat split; ring.
Qed.


(** In binary64 too the area is not capped at 50,000: doubling it to 100,000
    doubles every amount of the breakdown (a scaling by 2 is exact). *)
Lemma no_cap_binary64 :
  exists b b2 : CostBreakdown float,
    calculateRoofingCost (withRoofSize asphaltPlain 50000%float)
      = Return (Some b) /\
    calculateRoofingCost (withRoofSize asphaltPlain 100000%float)
      = Return (Some b2) /\
    (totalLow b2 = 2 * totalLow b)%float /\
    (totalMid b2 = 2 * totalMid b)%float /\
    (totalHigh b2 = 2 * totalHigh b)%float /\
    (materials b2 = 2 * materials b)%float /\
    (labor b2 = 2 * labor b)%float.
Proof.
  do 2 eexists. repeat split; vm_compute; reflexivity.
Qed.

(** ** The roof size helper *)

(** C8: at every number type, whatever the overhang and the pitch,
    [calculateRoofSize] returns 0 when the footprint is at most 0. *)
Theorem calculateRoofSize_nonpositive_footprint
    {number : Type} {Num : JSNumber number}
    (data : RoofSizeHelperData number) :
  leb (footprint data) (lit 0) = true ->
  calculateRoofSize data = lit 0.
Proof.
  intros Hle. unfold calculateRoofSize.
  rewrite Hle, orb_true_r. reflexivity.
Qed.

Lemma calculateRoofSize_nonpositive_footprint_witness :
  leb (-3)%float (lit 0) = true /\
  calculateRoofSize
    {| footprint := (-3)%float; overhang := 12%float; pitch := Pitch.steep |}
  = lit 0.
Proof.
  split; [reflexivity |].
  apply (calculateRoofSize_nonpositive_footprint
           {| footprint := (-3)%float; overhang := 12%float;
              pitch := Pitch.steep |}).
  reflexivity.
Defined.

(** Over the reals the condition is [footprint <= 0]; in binary64 a footprint
    of [0], [-0] or [NaN] gives 0 as well. *)
Lemma calculateRoofSize_nonpositive_footprint_Ideal
    (data : RoofSizeHelperData R) :
  (footprint data <= 0)%R -> calculateRoofSize data = 0%R.
Proof.
  intros Hle. rewrite <- Ideal_lit_0.
  apply calculateRoofSize_falsy_or_nonpositive. right.
  apply Ideal_leb_true. rewrite Ideal_lit_0. exact Hle.
Qed.

Lemma calculateRoofSize_zero_or_nan_Binary64 (o : float) (p : PitchType) :
  calculateRoofSize {| footprint := 0%float; overhang := o; pitch := p |}
    = 0%float /\
  calculateRoofSize {| footprint := (-0)%float; overhang := o; pitch := p |}
    = 0%float /\
  calculateRoofSize {| footprint := nan; overhang := o; pitch := p |}
    = 0%float.
Proof. repeat split. Qed.

(** The square root of 1000 lies between 31.62 and 31.623. *)
Lemma sqrt_1000_bounds : (31.62 < R_sqrt.sqrt 1000 < 31.623)%R.
Proof.
  split.
  - rewrite <- (sqrt_square 31.62) at 1 by lra.
    apply sqrt_lt_1_alt. lra.
  - rewrite <- (sqrt_square 31.623) at 1 by lra.
    apply sqrt_lt_1_alt. lra.
Qed.

(** Footprint 1000, overhang 12, medium pitch: the area before rounding is
    between 1647.4 and 1647.5 and [calculateRoofSize] returns 1647, over the
    reals and in binary64. *)
Lemma mediumPitchHouse_before_rounding :
  (1647.4 < (1000 + 4 * R_sqrt.sqrt 1000 * 12 / 12) * 1.3 * 1.125 < 1647.5)%R.
Proof. pose proof sqrt_1000_bounds. lra. Qed.

Lemma mediumPitchHouse_Ideal :
  calculateRoofSize (number := R) mediumPitchHouse = 1647%R.
Proof.
  unfold calculateRoofSize. cbn [mediumPitchHouse footprint overhang pitch].
  rewrite Ideal_ToBoolean_true by (ideal; lra).
  rewrite Ideal_leb_false by (ideal; lra).
  cbn [negb orb pitchMultipliers].
  apply Ideal_round. pose proof sqrt_1000_bounds.
  ideal. replace (1000 * / 1)%R with 1000%R by lra. lra.
Qed.

Lemma mediumPitchHouse_Binary64 :
  calculateRoofSize (number := float) mediumPitchHouse = 1647%float.
Proof. vm_compute. reflexivity. Qed.

(** C7, as the code has it: for footprint 1000, overhang 12 and medium pitch
    the perimeter is [4 * sqrt 1000], the overhang is divided by 12, and the
    area [(1000 + 4 * sqrt 1000) * 1.3 * 1.125], about 1647.49, rounds to
    1647, which [calculateRoofSize] returns over the reals and in
    binary64. *)
Theorem calculateRoofSize_medium_pitch_scenario :
  calculateRoofSize (number := R) mediumPitchHouse
    = Math_round
        ((1000 + 4 * R_sqrt.sqrt 1000 * 12 / 12) * 1.3 * 1.125)%R /\
  ((1000 + 4 * R_sqrt.sqrt 1000 * 12 / 12) * 1.3 * 1.125
   = (1000 + 4 * R_sqrt.sqrt 1000) * 1.3 * 1.125)%R /\
  (1647.4 < (1000 + 4 * R_sqrt.sqrt 1000) * 1.3 * 1.125 < 1647.5)%R /\
  calculateRoofSize (number := R) mediumPitchHouse = 1647%R /\
  calculateRoofSize (number := float) mediumPitchHouse = 1647%float.
Proof.
  pose proof mediumPitchHouse_before_rounding as Hb.
  split; [| split; [lra | split; [lra | split]]].
  - rewrite mediumPitchHouse_Ideal. symmetry. apply Ideal_round. lra.
  - apply mediumPitchHouse_Ideal.
  - apply mediumPitchHouse_Binary64.
Qed.

(** C7, as stated, fails: the call does not return 1648, over the reals or
    in binary64. *)
Lemma calculateRoofSize_medium_pitch_not_1648 :
  calculateRoofSize (number := R) mediumPitchHouse <> 1648%R /\
  calculateRoofSize (number := float) mediumPitchHouse <> 1648%float.
Proof.
  split.
  - rewrite mediumPitchHouse_Ideal. lra.
  - rewrite mediumPitchHouse_Binary64. intros H.
    apply (f_equal (fun x => PrimFloat.eqb x 1648)) in H.
    vm_compute in H. discriminate.
Qed.

(** C10: [calculateRoofSize] does not validate the overhang.  For footprint
    1 and overhang -100 it returns a negative integer at every pitch (-36,
    -40, -47 and -55), over the reals and in binary64. *)
Theorem calculateRoofSize_negative_overhang (p : PitchType) :
  (0 < footprint (negativeOverhang (number := R) p))%R /\
  (overhang (negativeOverhang (number := R) p) < 0)%R /\
  exists z : Z,
    (z < 0)%Z /\
    calculateRoofSize (number := R) (negativeOverhang p) = IZR z /\
    calculateRoofSize (number := float) (negativeOverhang p)
      = Binary64.of_Z z.
Proof.
  split; [cbn [negativeOverhang footprint]; ideal; lra |].
  split; [cbn [negativeOverhang overhang]; ideal; lra |].
  exists (match p with
          | Pitch.flat => -36 | Pitch.low => -40
          | Pitch.medium => -47 | Pitch.steep => -55
          end)%Z.
  split; [destruct p; reflexivity |].
  split; [| destruct p; vm_compute; reflexivity].
  unfold calculateRoofSize. cbn [negativeOverhang footprint overhang pitch].
  rewrite Ideal_ToBoolean_true by (ideal; lra).
  rewrite Ideal_leb_false by (ideal; lra).
  cbn [negb orb].
  replace (Math_sqrt (lit 1)) with 1%R
    by (ideal; replace (1 * / 1)%R with 1%R by lra; symmetry; apply sqrt_1).
  destruct p; apply Ideal_round; cbn [pitchMultipliers]; ideal; lra.
Qed.

(** * Further properties of the library *)

(** ** The material options *)

Lemma get_In_keys {V : Type} (o : Object V) (k : string) :
  In k (keys o) <-> exists v : V, get o k = Some v.
Proof.
  induction o as [| [k' v'] o IH]; cbn [keys map fst In get].
  - split; [intros [] | intros [v Hv]; discriminate].
  - destruct (String.eqb_spec k k') as [-> | Hne].
    + split; [intros _; eexists; reflexivity | intros _; left; reflexivity].
    + rewrite <- IH. unfold keys. split.
      * intros [Heq | Hin]; [congruence | exact Hin].
      * intros Hin. right. exact Hin.
Qed.

Section OptionsFacts.

Context {number : Type} {Num : JSNumber number}.
Variable toString : number -> string.

(** The label table has the keys of the pricing table, in the same order. *)
Lemma keys_materialLabels (rt : RoofingType) :
  keys (materialLabels rt) = keys (materialPricing rt).
Proof. destruct rt; reflexivity. Qed.

(** An option is built from a key of the pricing table. *)
Lemma getMaterialOptions_In (rt : RoofingType)
    (options : list (MaterialOption number)) (o : MaterialOption number) :
  getMaterialOptions toString rt = Return options ->
  In o options ->
  get (materialPricing rt) (MaterialOption.value o)
    = Some (MaterialOption.costRange o).
Proof.
  intros Hopts Hin.
  destruct rt; injection Hopts as <-; cbn [In] in Hin;
    repeat (destruct Hin as [<- | Hin]; [reflexivity |]);
    contradiction.
Qed.

(** X1: at every number type and for either roofing type,
    [getMaterialOptions] does not throw and lists exactly the keys of the
    pricing table, in their order: a material is offered if and only if the
    roofing type has a price for it. *)
Theorem getMaterialOptions_lists_catalog (rt : RoofingType) :
  exists options : list (MaterialOption number),
    getMaterialOptions toString rt = Return options /\
    map MaterialOption.value options = keys (materialPricing rt) /\
    forall m : MaterialType,
      In m (map MaterialOption.value options) <->
      exists entry : number * number, get (materialPricing rt) m = Some entry.
Proof.
  assert (H : exists options : list (MaterialOption number),
             getMaterialOptions toString rt = Return options /\
             map MaterialOption.value options = keys (materialPricing rt))
    by (destruct rt; eexists; split; reflexivity).
  destruct H as (options & Hopts & Hkeys).
  exists options. split; [exact Hopts |]. split; [exact Hkeys |].
  intros m. rewrite Hkeys. apply get_In_keys.
Qed.

(** X2: every option carries the price pair of its material in the pricing
    table, and its label is the display name of the material in the label
    table, which is defined, followed by the two prices. *)
Theorem getMaterialOptions_option (rt : RoofingType)
    (options : list (MaterialOption number)) (o : MaterialOption number) :
  getMaterialOptions toString rt = Return options ->
  In o options ->
  get (materialPricing rt) (MaterialOption.value o)
    = Some (MaterialOption.costRange o) /\
  exists displayName : string,
    get (materialLabels rt) (MaterialOption.value o) = Some displayName /\
    MaterialOption.label o =
      (displayName ++ " ($" ++ toString (fst (MaterialOption.costRange o))
       ++ "-$" ++ toString (snd (MaterialOption.costRange o)) ++ "/sq ft)").
Proof.
  intros Hopts Hin. split; [now apply (getMaterialOptions_In rt options) |].
  destruct rt; injection Hopts as <-; cbn [In] in Hin;
    repeat (destruct Hin as [<- | Hin]; [eexists; split; reflexivity |]);
    contradiction.
Qed.

(** X3: a request for an offered material, with a size that passes the
    guard, returns a breakdown, priced with the cost range of the option. *)
Theorem offered_material_is_estimated
    (formData : CalculatorFormData number)
    (options : list (MaterialOption number)) (o : MaterialOption number) :
  getMaterialOptions toString (roofingType formData) = Return options ->
  In o options ->
  material formData = MaterialOption.value o ->
  ToBoolean (roofSize formData) = true ->
  leb (roofSize formData) (lit 0) = false ->
  calculateRoofingCost formData =
    Return
      (Some (finalTotals
               (adjustedBase formData
                  (fst (MaterialOption.costRange o))
                  (snd (MaterialOption.costRange o)))
               (calculateAddons (roofSize formData) (jobType formData)
                  (tearoff formData) (permits formData)))).
Proof.
  intros Hopts Hin Hmat Ht Hp.
  pose proof (getMaterialOptions_In _ _ _ Hopts Hin) as Hget.
  rewrite <- Hmat in Hget.
  destruct (MaterialOption.costRange o) as [low high] eqn:E.
  now apply calculateRoofingCost_entry.
Qed.

End OptionsFacts.

Lemma getMaterialOptions_option_witness :
  getMaterialOptions sampleToString commercial
    = Return sampleCommercialOptions /\
  In tpoOption sampleCommercialOptions /\
  get (materialPricing commercial) (MaterialOption.value tpoOption)
    = Some (MaterialOption.costRange tpoOption) /\
  exists displayName : string,
    get (materialLabels commercial) (MaterialOption.value tpoOption)
      = Some displayName /\
    MaterialOption.label tpoOption =
      (displayName ++ " ($"
       ++ sampleToString (fst (MaterialOption.costRange tpoOption))
       ++ "-$" ++ sampleToString (snd (MaterialOption.costRange tpoOption))
       ++ "/sq ft)").
Proof.
  assert (H1 : getMaterialOptions sampleToString commercial
               = Return sampleCommercialOptions) by reflexivity.
  assert (H2 : In tpoOption sampleCommercialOptions)
    by (left; reflexivity).
  split; [exact H1 |]. split; [exact H2 |].
  exact (getMaterialOptions_option sampleToString commercial
           sampleCommercialOptions tpoOption H1 H2).
Defined.

Lemma offered_material_is_estimated_witness :
  getMaterialOptions sampleToString
    (roofingType (tpoComplexWithPermits (number := float)))
    = Return sampleCommercialOptions /\
  In tpoOption sampleCommercialOptions /\
  material (tpoComplexWithPermits (number := float))
    = MaterialOption.value tpoOption /\
  ToBoolean (roofSize (tpoComplexWithPermits (number := float))) = true /\
  leb (roofSize (tpoComplexWithPermits (number := float))) (lit 0) = false /\
  calculateRoofingCost (tpoComplexWithPermits (number := float)) =
    Return
      (Some (finalTotals
               (adjustedBase tpoComplexWithPermits
                  (fst (MaterialOption.costRange tpoOption))
                  (snd (MaterialOption.costRange tpoOption)))
               (calculateAddons (lit 1000) new false true))).
Proof.
  assert (H1 : getMaterialOptions sampleToString
                 (roofingType (tpoComplexWithPermits (number := float)))
               = Return sampleCommercialOptions) by reflexivity.
  assert (H2 : In tpoOption sampleCommercialOptions)
    by (left; reflexivity).
  split; [exact H1 |]. split; [exact H2 |].
  do 3 (split; [reflexivity |]).
  exact (offered_material_is_estimated sampleToString
           tpoComplexWithPermits sampleCommercialOptions tpoOption
           H1 H2 eq_refl eq_refl eq_refl).
Defined.

(** ** The cost estimate *)

(** X4: at every number type, the tear-off flag only counts on a
    replacement: for a new roof or a repair the call returns the same with
    the flag set or not, whatever the other fields. *)
Theorem tearoff_only_on_replacement
    {number : Type} {Num : JSNumber number}
    (rt : RoofingType) (size : number) (m : MaterialType) (jt : JobType)
    (cx : ComplexityType) (perm : bool) :
  jt <> replacement ->
  calculateRoofingCost
    {| roofingType := rt; roofSize := size; material := m; jobType := jt;
       complexity := cx; tearoff := true; permits := perm |}
  = calculateRoofingCost
      {| roofingType := rt; roofSize := size; material := m; jobType := jt;
         complexity := cx; tearoff := false; permits := perm |}.
Proof.
  intros Hjt. destruct jt; [reflexivity | contradiction | reflexivity].
Qed.

Lemma tearoff_only_on_replacement_witness :
  repair <> replacement /\
  calculateRoofingCost
    {| roofingType := commercial; roofSize := 2400%float; material := "pvc";
       jobType := repair; complexity := Complexity.medium;
       tearoff := true; permits := true |}
  = calculateRoofingCost
      {| roofingType := commercial; roofSize := 2400%float;
         material := "pvc"; jobType := repair;
         complexity := Complexity.medium;
         tearoff := false; permits := true |}.
Proof.
  assert (H : repair <> replacement) by discriminate.
  split; [exact H |].
  exact (tearoff_only_on_replacement commercial 2400%float "pvc" repair
           Complexity.medium true H).
Defined.

(** The add-ons are not negative for a positive size. *)
Lemma Ideal_calculateAddons_nonneg (size : R) (jt : JobType)
    (tear perm : bool) :
  (0 < size)%R -> (0 <= calculateAddons size jt tear perm)%R.
Proof.
  intros Hsize. rewrite Ideal_calculateAddons.
  destruct (tear && JobType_eqb jt replacement), perm; lra.
Qed.

(** X5, over the reals: every amount of the breakdown of a valid request is
    positive, the add-ons being positive or zero. *)
Theorem breakdown_positive (formData : CalculatorFormData R)
    (lowCost highCost : R) :
  (0 < roofSize formData)%R ->
  get (materialPricing (roofingType formData)) (material formData)
    = Some (lowCost, highCost) ->
  exists b : CostBreakdown R,
    calculateRoofingCost formData = Return (Some b) /\
    (0 < totalLow b)%R /\ (0 < totalMid b)%R /\ (0 < totalHigh b)%R /\
    (0 < materials b)%R /\ (0 < labor b)%R /\ (0 <= addons b)%R.
Proof.
  intros Hsize Hget.
  rewrite (Ideal_calculateRoofingCost _ _ _ Hsize Hget).
  eexists; split; [reflexivity |].
  pose proof (materialPricing_ordered _ _ _ _ Hget) as [Hlow Hle].
  pose proof (adjustedBase_closed_form formData lowCost highCost)
    as (HL & HM & HH).
  pose proof (adjustment_pos formData) as Hk.
  pose proof (Ideal_calculateAddons_nonneg (roofSize formData)
                (jobType formData) (tearoff formData) (permits formData)
                Hsize) as Ha.
  cbn [finalTotals totalLow totalMid totalHigh materials labor addons].
  cbv zeta in HL, HM, HH. rewrite HL, HM, HH.
  set (a := calculateAddons _ _ _ _) in *.
  set (k := adjustment formData) in *.
  set (size := roofSize formData) in *.
  assert (Hsk : (0 < size * k)%R) by (apply Rmult_lt_0_compat; assumption).
  assert (HL' : (0 < size * lowCost * k)%R) by nra.
  assert (HM' : (0 < size * ((lowCost + highCost) / 2) * k)%R) by nra.
  assert (HH' : (0 < size * highCost * k)%R) by nra.
  ideal. repeat split; lra.
Qed.

Lemma breakdown_positive_witness :
  (0 < roofSize (asphaltPlain (number := R)))%R /\
  get (materialPricing (number := R) residential) "asphalt"
    = Some (lit 5, lit 10) /\
  exists b : CostBreakdown R,
    calculateRoofingCost asphaltPlain = Return (Some b) /\
    (0 < totalLow b)%R /\ (0 < totalMid b)%R /\ (0 < totalHigh b)%R /\
    (0 < materials b)%R /\ (0 < labor b)%R /\ (0 <= addons b)%R.
Proof.
  assert (Hsize : (0 < roofSize (asphaltPlain (number := R)))%R)
    by (cbn [asphaltPlain roofSize]; ideal; lra).
  split; [exact Hsize |]. split; [reflexivity |].
  exact (breakdown_positive asphaltPlain (lit 5) (lit 10) Hsize eq_refl).
Defined.

(** In real arithmetic, where no operation rounds: the mid total of a valid
    request is the midpoint of its low and high totals. *)
Theorem totalMid_is_midpoint (formData : CalculatorFormData R)
    (lowCost highCost : R) :
  (0 < roofSize formData)%R ->
  get (materialPricing (roofingType formData)) (material formData)
    = Some (lowCost, highCost) ->
  exists b : CostBreakdown R,
    calculateRoofingCost formData = Return (Some b) /\
    (totalMid b = (totalLow b + totalHigh b) / 2)%R.
Proof.
  intros Hsize Hget.
  rewrite (Ideal_calculateRoofingCost _ _ _ Hsize Hget).
  eexists; split; [reflexivity |].
  pose proof (adjustedBase_closed_form formData lowCost highCost)
    as (HL & HM & HH).
  cbn [finalTotals totalLow totalMid totalHigh add Ideal.number].
  cbv zeta in HL, HM, HH. rewrite HL, HM, HH. field.
Qed.


(** X7, over the reals: for a valid request, a higher complexity gives
    higher totals: simple below medium below complex, the other fields
    being the same. *)
Theorem totals_increase_with_complexity (formData : CalculatorFormData R)
    (lowCost highCost : R) :
  (0 < roofSize formData)%R ->
  get (materialPricing (roofingType formData)) (material formData)
    = Some (lowCost, highCost) ->
  exists bs bm bc : CostBreakdown R,
    calculateRoofingCost (withComplexity formData Complexity.simple)
      = Return (Some bs) /\
    calculateRoofingCost (withComplexity formData Complexity.medium)
      = Return (Some bm) /\
    calculateRoofingCost (withComplexity formData Complexity.complex)
      = Return (Some bc) /\
    (totalLow bs < totalLow bm < totalLow bc)%R /\
    (totalMid bs < totalMid bm < totalMid bc)%R /\
    (totalHigh bs < totalHigh bm < totalHigh bc)%R.
Proof.
  intros Hsize Hget.
  rewrite (Ideal_calculateRoofingCost
             (withComplexity formData Complexity.simple) _ _ Hsize Hget).
  rewrite (Ideal_calculateRoofingCost
             (withComplexity formData Complexity.medium) _ _ Hsize Hget).
  rewrite (Ideal_calculateRoofingCost
             (withComplexity formData Complexity.complex) _ _ Hsize Hget).
  do 3 eexists. do 3 (split; [reflexivity |]).
  pose proof (materialPricing_ordered _ _ _ _ Hget) as [Hlow Hle].
  destruct formData as [rt size m jt cx tear perm].
  cbn [roofSize] in Hsize.
  assert (HL : (0 < size * lowCost)%R) by nra.
  assert (HH : (0 < size * highCost)%R) by nra.
  unfold withComplexity.
  set (a := calculateAddons _ _ _ _).
  destruct rt, jt; steps; fold a; ideal; repeat split; lra.
Qed.

Lemma totals_increase_with_complexity_witness :
  (0 < roofSize (metalRepair (number := R)))%R /\
  get (materialPricing (number := R) residential) "metal"
    = Some (lit 7, lit 20) /\
  exists bs bm bc : CostBreakdown R,
    calculateRoofingCost (withComplexity metalRepair Complexity.simple)
      = Return (Some bs) /\
    calculateRoofingCost (withComplexity metalRepair Complexity.medium)
      = Return (Some bm) /\
    calculateRoofingCost (withComplexity metalRepair Complexity.complex)
      = Return (Some bc) /\
    (totalLow bs < totalLow bm < totalLow bc)%R /\
    (totalMid bs < totalMid bm < totalMid bc)%R /\
    (totalHigh bs < totalHigh bm < totalHigh bc)%R.
Proof.
  assert (Hsize : (0 < roofSize (metalRepair (number := R)))%R)
    by (cbn [metalRepair roofSize]; ideal; lra).
  split; [exact Hsize |]. split; [reflexivity |].
  exact (totals_increase_with_complexity metalRepair (lit 7) (lit 20)
           Hsize eq_refl).
Defined.

(** In real arithmetic, where no operation rounds: a repair costs 0.6 of a
    new roof before add-ons.  For a valid request, the repair and the new
    installation have the same add-ons, and each total of the repair is 0.6
    times the total of the new installation less its add-ons, plus the
    add-ons. *)
Theorem repair_is_six_tenths_of_new (formData : CalculatorFormData R)
    (lowCost highCost : R) :
  (0 < roofSize formData)%R ->
  get (materialPricing (roofingType formData)) (material formData)
    = Some (lowCost, highCost) ->
  exists bn br : CostBreakdown R,
    calculateRoofingCost (withJobType formData new) = Return (Some bn) /\
    calculateRoofingCost (withJobType formData repair) = Return (Some br) /\
    addons br = addons bn /\
    (totalLow br = 0.6 * (totalLow bn - addons bn) + addons bn)%R /\
    (totalMid br = 0.6 * (totalMid bn - addons bn) + addons bn)%R /\
    (totalHigh br = 0.6 * (totalHigh bn - addons bn) + addons bn)%R.
Proof.
  intros Hsize Hget.
  rewrite (Ideal_calculateRoofingCost
             (withJobType formData new) _ _ Hsize Hget).
  rewrite (Ideal_calculateRoofingCost
             (withJobType formData repair) _ _ Hsize Hget).
  do 2 eexists. do 2 (split; [reflexivity |]).
  destruct formData as [rt size m jt cx tear perm].
  unfold withJobType.
  destruct rt, cx, tear, perm; steps; ideal; repeat split; lra.
Qed.


(** X9, over the reals: the totals do not decrease with the area.  For a
    material of the catalog and sizes [0 < a1 <= a2], each total for [a1] is
    at most the total for [a2], add-ons included. *)
Theorem totals_monotone_in_area (formData : CalculatorFormData R)
    (lowCost highCost a1 a2 : R) :
  get (materialPricing (roofingType formData)) (material formData)
    = Some (lowCost, highCost) ->
  (0 < a1)%R -> (a1 <= a2)%R ->
  exists b1 b2 : CostBreakdown R,
    calculateRoofingCost (withRoofSize formData a1) = Return (Some b1) /\
    calculateRoofingCost (withRoofSize formData a2) = Return (Some b2) /\
    (totalLow b1 <= totalLow b2)%R /\
    (totalMid b1 <= totalMid b2)%R /\
    (totalHigh b1 <= totalHigh b2)%R.
Proof.
  intros Hget Ha1 Hle.
  assert (Ha2 : (0 < a2)%R) by lra.
  rewrite (Ideal_calculateRoofingCost (withRoofSize formData a1)
             lowCost highCost Ha1 Hget).
  rewrite (Ideal_calculateRoofingCost (withRoofSize formData a2)
             lowCost highCost Ha2 Hget).
  do 2 eexists. do 2 (split; [reflexivity |]).
  pose proof (materialPricing_ordered _ _ _ _ Hget) as [Hlow Hlh].
  pose proof (adjustedBase_closed_form (withRoofSize formData a1)
                lowCost highCost) as (HL1 & HM1 & HH1).
  pose proof (adjustedBase_closed_form (withRoofSize formData a2)
                lowCost highCost) as (HL2 & HM2 & HH2).
  cbv zeta in HL1, HM1, HH1, HL2, HM2, HH2.
  rewrite adjustment_withRoofSize in HL1, HM1, HH1, HL2, HM2, HH2.
  pose proof (adjustment_pos formData) as Hk.
  cbn [finalTotals totalLow totalMid totalHigh
       withRoofSize roofSize jobType tearoff permits] in *.
  rewrite HL1, HM1, HH1, HL2, HM2, HH2, !Ideal_calculateAddons.
  set (k := adjustment formData) in *.
  assert (Hlk : (0 < lowCost * k)%R) by (apply Rmult_lt_0_compat; lra).
  assert (Hhk : (0 < highCost * k)%R) by (apply Rmult_lt_0_compat; lra).
  assert (HL : (a1 * lowCost * k <= a2 * lowCost * k)%R) by nra.
  assert (HH : (a1 * highCost * k <= a2 * highCost * k)%R) by nra.
  assert (HM : (a1 * ((lowCost + highCost) / 2) * k
                <= a2 * ((lowCost + highCost) / 2) * k)%R) by nra.
  cbn [add Ideal.number].
  destruct (tearoff formData && JobType_eqb (jobType formData) replacement),
    (permits formData); repeat split; lra.
Qed.

Lemma totals_monotone_in_area_witness :
  get (materialPricing (number := R) residential) "metal"
    = Some (lit 7, lit 20) /\
  (0 < 800)%R /\ (800 <= 60000)%R /\
  exists b1 b2 : CostBreakdown R,
    calculateRoofingCost (withRoofSize metalRepair 800%R)
      = Return (Some b1) /\
    calculateRoofingCost (withRoofSize metalRepair 60000%R)
      = Return (Some b2) /\
    (totalLow b1 <= totalLow b2)%R /\
    (totalMid b1 <= totalMid b2)%R /\
    (totalHigh b1 <= totalHigh b2)%R.
Proof.
  assert (H1 : (0 < 800)%R) by lra.
  assert (H2 : (800 <= 60000)%R) by lra.
  split; [reflexivity |]. split; [exact H1 |]. split; [exact H2 |].
  exact (totals_monotone_in_area metalRepair (lit 7) (lit 20)
           800%R 60000%R eq_refl H1 H2).
Defined.

(** X10, in binary64: a roof size of [NaN], [0] or [-0] gives [null],
    whatever the other fields, so that no breakdown of [NaN] amounts comes
    from a size that is not a number. *)
Theorem calculateRoofingCost_NaN_size (formData : CalculatorFormData float) :
  calculateRoofingCost (withRoofSize formData nan) = Return None /\
  calculateRoofingCost (withRoofSize formData 0%float) = Return None /\
  calculateRoofingCost (withRoofSize formData (-0)%float) = Return None.
Proof.
  repeat split; apply calculateRoofingCost_guard; left; reflexivity.
Qed.

(** ** The roof size *)

Lemma pitchMultipliers_bounds (p : PitchType) :
  (1 <= pitchMultipliers p <= 1.5)%R.
Proof. destruct p; cbn [pitchMultipliers]; ideal; lra. Qed.

(** Past the guard, the result is the area before rounding, rounded. *)
Lemma Ideal_calculateRoofSize (data : RoofSizeHelperData R) :
  (0 < footprint data)%R ->
  calculateRoofSize data = IZR (Zfloor (exactRoofArea data + / 2)).
Proof.
  intros Hfp. destruct (Ideal_positive_size _ Hfp) as [Ht Hp].
  unfold calculateRoofSize. rewrite Ht, Hp. cbn [negb orb].
  cbn [Math_round Ideal.number]. unfold Ideal.round, exactRoofArea.
  do 3 f_equal. ideal. field.
Qed.

(** With an overhang that is not negative, the area before rounding is at
    least 1.125 times the footprint. *)
Lemma exactRoofArea_lower (data : RoofSizeHelperData R) :
  (0 < footprint data)%R -> (0 <= overhang data)%R ->
  (1.125 * footprint data <= exactRoofArea data)%R.
Proof.
  intros Hfp Ho. unfold exactRoofArea.
  pose proof (pitchMultipliers_bounds (pitch data)) as [Hp _].
  pose proof (sqrt_pos (footprint data)) as Hs.
  assert (Hso : (0 <= R_sqrt.sqrt (footprint data) * overhang data)%R)
    by (apply Rmult_le_pos; assumption).
  set (so := (R_sqrt.sqrt (footprint data) * overhang data)%R) in *.
  replace (4 * R_sqrt.sqrt (footprint data) * overhang data / 12)%R
    with (so / 3)%R by (unfold so; field).
  nra.
Qed.

(** In real arithmetic, where no operation rounds: past the guard,
    [calculateRoofSize] is the area before rounding, rounded to the nearest
    integer: it is within one half of it, a tie going up. *)
Theorem calculateRoofSize_rounds_to_nearest (data : RoofSizeHelperData R) :
  (0 < footprint data)%R ->
  (exists z : Z, calculateRoofSize data = IZR z) /\
  (exactRoofArea data - / 2 < calculateRoofSize data
   <= exactRoofArea data + / 2)%R.
Proof.
  intros Hfp. rewrite (Ideal_calculateRoofSize _ Hfp).
  split; [eexists; reflexivity |].
  pose proof (Zfloor_bound (exactRoofArea data + / 2)). lra.
Qed.


(** X12, over the reals: with an overhang that is not negative the result is
    an integer that is not negative, whatever the footprint. *)
Theorem calculateRoofSize_nonnegative (data : RoofSizeHelperData R) :
  (0 <= overhang data)%R ->
  exists z : Z, (0 <= z)%Z /\ calculateRoofSize data = IZR z.
Proof.
  intros Ho. destruct (Rle_lt_dec (footprint data) 0) as [Hle | Hfp].
  - exists 0%Z. split; [lia |].
    now apply calculateRoofSize_nonpositive_footprint_Ideal.
  - rewrite (Ideal_calculateRoofSize _ Hfp).
    eexists; split; [| reflexivity].
    apply Zfloor_lub.
    pose proof (exactRoofArea_lower data Hfp Ho). lra.
Qed.

Lemma calculateRoofSize_nonnegative_witness :
  (0 <= overhang (house1500 (number := R) Pitch.steep))%R /\
  exists z : Z,
    (0 <= z)%Z /\ calculateRoofSize (house1500 Pitch.steep) = IZR z.
Proof.
  assert (Ho : (0 <= overhang (house1500 (number := R) Pitch.steep))%R)
    by (cbn [house1500 overhang]; ideal; lra).
  split; [exact Ho |].
  exact (calculateRoofSize_nonnegative (house1500 Pitch.steep) Ho).
Defined.

(** X13, over the reals: with an overhang that is not negative, the result
    for a footprint of at least 4 is at least the footprint. *)
Theorem calculateRoofSize_at_least_footprint (data : RoofSizeHelperData R) :
  (4 <= footprint data)%R -> (0 <= overhang data)%R ->
  (footprint data <= calculateRoofSize data)%R.
Proof.
  intros Hfp Ho.
  assert (Hpos : (0 < footprint data)%R) by lra.
  rewrite (Ideal_calculateRoofSize _ Hpos).
  pose proof (exactRoofArea_lower data Hpos Ho).
  pose proof (Zfloor_bound (exactRoofArea data + / 2)). lra.
Qed.

Lemma calculateRoofSize_at_least_footprint_witness :
  (4 <= footprint (house1500 (number := R) Pitch.flat))%R /\
  (0 <= overhang (house1500 (number := R) Pitch.flat))%R /\
  (footprint (house1500 (number := R) Pitch.flat)
   <= calculateRoofSize (house1500 Pitch.flat))%R.
Proof.
  assert (Hfp : (4 <= footprint (house1500 (number := R) Pitch.flat))%R)
    by (cbn [house1500 footprint]; ideal; lra).
  assert (Ho : (0 <= overhang (house1500 (number := R) Pitch.flat))%R)
    by (cbn [house1500 overhang]; ideal; lra).
  split; [exact Hfp |]. split; [exact Ho |].
  exact (calculateRoofSize_at_least_footprint (house1500 Pitch.flat) Hfp Ho).
Defined.

(** X14, over the reals: with an overhang that is not negative, a steeper
    pitch never gives a smaller roof: flat, low, medium, steep in this
    order, for the same footprint and overhang. *)
Theorem calculateRoofSize_monotone_in_pitch (fp o : R) :
  (0 <= o)%R ->
  (calculateRoofSize
     {| footprint := fp; overhang := o; pitch := Pitch.flat |}
   <= calculateRoofSize
        {| footprint := fp; overhang := o; pitch := Pitch.low |}
   <= calculateRoofSize
        {| footprint := fp; overhang := o; pitch := Pitch.medium |})%R /\
  (calculateRoofSize
     {| footprint := fp; overhang := o; pitch := Pitch.medium |}
   <= calculateRoofSize
        {| footprint := fp; overhang := o; pitch := Pitch.steep |})%R.
Proof.
  intros Ho. destruct (Rle_lt_dec fp 0) as [Hle | Hfp].
  - rewrite !calculateRoofSize_nonpositive_footprint_Ideal by exact Hle.
    lra.
  - rewrite !Ideal_calculateRoofSize by exact Hfp.
    pose proof (sqrt_pos fp) as Hs.
    assert (Hso : (0 <= R_sqrt.sqrt fp * o)%R)
      by (apply Rmult_le_pos; assumption).
    assert (Hmono : forall p q : PitchType,
               (pitchMultipliers (number := R) p <= pitchMultipliers q)%R ->
               (IZR (Zfloor (exactRoofArea
                               {| footprint := fp; overhang := o;
                                  pitch := p |} + / 2))
                <= IZR (Zfloor (exactRoofArea
                                  {| footprint := fp; overhang := o;
                                     pitch := q |} + / 2)))%R).
    { intros p q Hpq. apply IZR_le, Zfloor_le.
      unfold exactRoofArea. cbn [footprint overhang pitch].
      set (so := (R_sqrt.sqrt fp * o)%R) in *.
      replace (4 * R_sqrt.sqrt fp * o / 12)%R with (so / 3)%R
        by (unfold so; field).
      nra. }
    repeat split; apply Hmono; cbn [pitchMultipliers]; ideal; lra.
Qed.

Lemma calculateRoofSize_monotone_in_pitch_witness :
  (0 <= 18)%R /\
  (calculateRoofSize
     {| footprint := 1500%R; overhang := 18%R; pitch := Pitch.flat |}
   <= calculateRoofSize
        {| footprint := 1500%R; overhang := 18%R; pitch := Pitch.low |}
   <= calculateRoofSize
        {| footprint := 1500%R; overhang := 18%R; pitch := Pitch.medium |})%R
  /\
  (calculateRoofSize
     {| footprint := 1500%R; overhang := 18%R; pitch := Pitch.medium |}
   <= calculateRoofSize
        {| footprint := 1500%R; overhang := 18%R; pitch := Pitch.steep |})%R.
Proof.
  assert (Ho : (0 <= 18)%R) by lra.
  split; [exact Ho |].
  exact (calculateRoofSize_monotone_in_pitch 1500%R 18%R Ho).
Defined.

(** * Properties of the form *)

Import RoofingCalculator.

Lemma RoofingType_eqb_refl (rt : RoofingType) : RoofingType_eqb rt rt = true.
Proof. destruct rt; reflexivity. Qed.

Lemma RoofingType_eqb_true (a b : RoofingType) :
  RoofingType_eqb a b = true -> a = b.
Proof. destruct a, b; (reflexivity || discriminate). Qed.

(** [calculateRoofingCost] returns, [null] or a breakdown, whenever the
    material is empty or has an entry for the roofing type. *)
Lemma calculateRoofingCost_selectable_returns
    {number : Type} {Num : JSNumber number}
    (formData : CalculatorFormData number) :
  material formData = EmptyString \/
  (exists entry : number * number,
     get (materialPricing (roofingType formData)) (material formData)
       = Some entry) ->
  exists r : option (CostBreakdown number),
    calculateRoofingCost formData = Return r.
Proof.
  intros [Hempty | [[lowCost highCost] Hget]].
  - exists None. apply calculateRoofingCost_guard. right; left. exact Hempty.
  - unfold calculateRoofingCost. rewrite Hget.
    destruct (negb (ToBoolean (roofSize formData))
              || negb (stringToBoolean (material formData))
              || leb (roofSize formData) (lit 0));
      eexists; reflexivity.
Qed.

Section FormFacts.

Context {number : Type} {Num : JSNumber number} {Ord : JSNumberOrder number}.
Variable parseFloat : string -> number.
Variable toString : number -> string.

(** A handler that leaves the roofing type and the material alone keeps
    the material selectable. *)
Lemma materialSelectable_same (st st' : State) :
  roofingType (formData st') = roofingType (formData st) ->
  material (formData st') = material (formData st) ->
  materialSelectable st -> materialSelectable st'.
Proof.
  unfold materialSelectable. intros -> ->. exact (fun H => H).
Qed.

(** The size handler only writes the size. *)
Lemma handleRoofSizeChange_formData (value : string) (st : State) :
  exists size : number,
    formData (fst (handleRoofSizeChange parseFloat value st))
      = withRoofSize (formData st) size \/
    fst (handleRoofSizeChange parseFloat value st) = st.
Proof.
  unfold handleRoofSizeChange.
  destruct (ltb _ _); [exists (lit 0); right; reflexivity |].
  destruct (ltb _ _); eexists; left; reflexivity.
Qed.

(** What a handler does to the roofing type and the material of the form. *)
Lemma handle_formData (ev : Event) (st st' : State) (toasts : list Toast) :
  handle parseFloat ev st = Return (st', toasts) ->
  match ev with
  | clickRoofingType type =>
      roofingType (formData st') = type /\
      material (formData st') = material (formData st)
  | changeField (materialField m) =>
      roofingType (formData st') = roofingType (formData st) /\
      material (formData st') = m
  | clickReset =>
      roofingType (formData st') = residential /\
      material (formData st') = EmptyString
  | _ =>
      roofingType (formData st') = roofingType (formData st) /\
      material (formData st') = material (formData st)
  end.
Proof.
  destruct ev as [type | value | change | | | value | value | value |];
    cbn [handle]; intros H.
  - injection H as <- _. split; reflexivity.
  - injection H as H1.
    destruct (handleRoofSizeChange_formData value st) as [size [E | E]];
      rewrite H1 in E; cbn [fst] in E; rewrite E; split; reflexivity.
  - injection H as <- _. destruct change; split; reflexivity.
  - unfold calculateCost in H.
    destruct (negb _ || negb _);
      [injection H as <- _; split; reflexivity |].
    destruct (calculateRoofingCost (formData st)) as [[b |] | e];
      [| | discriminate]; injection H as <- _; split; reflexivity.
  - injection H as <- _. split; reflexivity.
  - injection H as <- _. split; reflexivity.
  - injection H as <- _. split; reflexivity.
  - injection H as <- _. split; reflexivity.
  - injection H as H1. unfold calculateRoofSizeHelper in H1.
    destruct (negb _); injection H1 as <- _; split; reflexivity.
Qed.

(** One event keeps the material selectable. *)
Lemma dispatch_materialSelectable (ev : Event) (st st' : State)
    (toasts : list Toast) :
  materialSelectable st ->
  offered toString ev st ->
  dispatch parseFloat ev st = Return (st', toasts) ->
  materialSelectable st'.
Proof.
  intros Hinv Hoff Hd. unfold dispatch in Hd.
  destruct (handle parseFloat ev st) as [[st1 toasts1] | e] eqn:Hh;
    [| discriminate].
  pose proof (handle_formData ev st st1 toasts1 Hh) as Hfd.
  destruct (RoofingType_eqb (roofingType (formData st))
              (roofingType (formData st1))) eqn:Heq;
    injection Hd as <- _.
  - apply RoofingType_eqb_true in Heq.
    destruct ev as [type | value | change | | | value | value | value |];
      try (destruct Hfd as [Hrt Hm];
           now apply (materialSelectable_same st st1)).
    + destruct change as [m | | | |];
        try (destruct Hfd as [Hrt Hm];
             now apply (materialSelectable_same st st1)).
      destruct Hfd as [Hrt Hm].
      destruct Hoff as (options & Hopts & Hin).
      apply in_map_iff in Hin. destruct Hin as (o & Ho & Hin).
      unfold materialOptions in Hopts.
      pose proof (getMaterialOptions_In toString _ _ _ Hopts Hin) as Hget.
      right. exists (MaterialOption.costRange o).
      rewrite Hrt, Hm, <- Ho. exact Hget.
    + destruct Hfd as [Hrt Hm]. left. exact Hm.
  - left. reflexivity.
Qed.

Lemma reachable_selectable (st : State) :
  reachable parseFloat toString st -> materialSelectable st.
Proof.
  intros Hreach.
  induction Hreach as [| ev st st' toasts Hreach IH Hoff Hd];
    [left; reflexivity |].
  exact (dispatch_materialSelectable ev st st' toasts IH Hoff Hd).
Qed.

(** X15: at every number type, in every state the form can reach, the
    selected material is empty or has a price for the current roofing type:
    changing the roofing type resets the selection, and the select only
    lists the materials of the roofing type. *)
Theorem reachable_materialSelectable (st : State) :
  reachable parseFloat toString st -> materialSelectable st.
Proof.
  induction 1 as [| ev st st' toasts Hreach IH Hoff Hd].
  - left. reflexivity.
  - exact (dispatch_materialSelectable ev st st' toasts IH Hoff Hd).
Qed.

(** X16: at every number type, no event of the form throws in a reachable
    state; in particular the calculate button never runs into the
    [TypeError] of a material without a price. *)
Theorem reachable_dispatch_returns (st : State) (ev : Event) :
  reachable parseFloat toString st ->
  exists r : State * list Toast, dispatch parseFloat ev st = Return r.
Proof.
  intros Hreach.
  pose proof (reachable_selectable st Hreach) as Hinv.
  assert (Hh : exists r, handle parseFloat ev st = Return r).
  { destruct ev; cbn [handle]; try (eexists; reflexivity).
    unfold calculateCost.
    destruct (negb _ || negb _); [eexists; reflexivity |].
    destruct (calculateRoofingCost_selectable_returns (formData st) Hinv)
      as [[b |] ->]; eexists; reflexivity. }
  destruct Hh as [[st1 toasts1] Hh]. unfold dispatch. rewrite Hh.
  destruct (RoofingType_eqb _ _); eexists; reflexivity.
Qed.

(** X17: at every number type, only the calculate and reset buttons touch
    the shown results: after any other event the results and their
    visibility are those of before, so an estimate on display is not
    recomputed when the form changes. *)
Theorem results_kept_by_other_events (ev : Event) (st st' : State)
    (toasts : list Toast) :
  ev <> clickCalculate -> ev <> clickReset ->
  dispatch parseFloat ev st = Return (st', toasts) ->
  results st' = results st /\ showResults st' = showResults st.
Proof.
  intros Hc Hr Hd. unfold dispatch in Hd.
  assert (Hh : exists st1 toasts1,
             handle parseFloat ev st = Return (st1, toasts1) /\
             results st1 = results st /\ showResults st1 = showResults st).
  { destruct ev as [type | value | change | | | value | value | value |];
      cbn [handle]; try contradiction;
      try (do 2 eexists; split; [reflexivity | split; reflexivity]).
    - unfold handleRoofSizeChange.
      destruct (ltb _ _); [| destruct (ltb _ _)];
        do 2 eexists; (split; [reflexivity | split; reflexivity]).
    - unfold calculateRoofSizeHelper.
      destruct (negb _);
        do 2 eexists; (split; [reflexivity | split; reflexivity]). }
  destruct Hh as (st1 & toasts1 & Hh & Hres & Hshow). rewrite Hh in Hd.
  destruct (RoofingType_eqb _ _); injection Hd as <- _;
    split; assumption.
Qed.

(** X18: at every number type, a footprint that is negative passes the
    check of the helper, which then stores 0 as the roof size of the form
    and as the calculated size, without a toast. *)
Theorem calculateRoofSizeHelper_negative_footprint (st : State) :
  ToBoolean (footprint (roofSizeHelper st)) = true ->
  leb (footprint (roofSizeHelper st)) (lit 0) = true ->
  calculateRoofSizeHelper st =
    ({| formData := withRoofSize (formData st) (lit 0);
        roofSizeHelper := roofSizeHelper st;
        results := results st;
        showResults := showResults st;
        calculatedRoofSize := Some (lit 0) |}, []).
Proof.
  intros Ht Hle. unfold calculateRoofSizeHelper. rewrite Ht. cbn [negb].
  rewrite (calculateRoofSize_falsy_or_nonpositive (roofSizeHelper st))
    by (right; exact Hle).
  reflexivity.
Qed.

End FormFacts.

Lemma tpoSelected_reachable :
  reachable sampleParseFloat sampleToString tpoSelected.
Proof.
  apply (reachable_dispatch sampleParseFloat sampleToString
           (changeField (materialField "tpo")) commercialClicked
           tpoSelected []).
  - apply (reachable_dispatch sampleParseFloat sampleToString
             (clickRoofingType commercial) initialState
             commercialClicked []).
    + apply reachable_initial.
    + exact I.
    + reflexivity.
  - eexists. split; [reflexivity |]. cbn. left. reflexivity.
  - reflexivity.
Qed.

Lemma reachable_materialSelectable_witness :
  reachable sampleParseFloat sampleToString tpoSelected /\
  materialSelectable tpoSelected.
Proof.
  split; [exact tpoSelected_reachable |].
  exact (reachable_materialSelectable sampleParseFloat sampleToString
           tpoSelected tpoSelected_reachable).
Defined.

Lemma reachable_dispatch_returns_witness :
  reachable sampleParseFloat sampleToString tpoSelected /\
  exists r : State * list Toast,
    dispatch sampleParseFloat clickCalculate tpoSelected = Return r.
Proof.
  split; [exact tpoSelected_reachable |].
  exact (reachable_dispatch_returns sampleParseFloat sampleToString
           tpoSelected clickCalculate tpoSelected_reachable).
Defined.

Lemma results_kept_by_other_events_witness :
  changeRoofSize "1200" <> clickCalculate /\
  changeRoofSize "1200" <> clickReset /\
  dispatch sampleParseFloat (changeRoofSize "1200") tpoSelected
    = Return (tpoSized, []) /\
  results tpoSized = results tpoSelected /\
  showResults tpoSized = showResults tpoSelected.
Proof.
  assert (H1 : changeRoofSize "1200" <> clickCalculate) by discriminate.
  assert (H2 : changeRoofSize "1200" <> clickReset) by discriminate.
  assert (H3 : dispatch sampleParseFloat (changeRoofSize "1200") tpoSelected
               = Return (tpoSized, [])) by reflexivity.
  split; [exact H1 |]. split; [exact H2 |]. split; [exact H3 |].
  exact (results_kept_by_other_events sampleParseFloat
           (changeRoofSize "1200") tpoSelected tpoSized [] H1 H2 H3).
Defined.

Lemma calculateRoofSizeHelper_negative_footprint_witness :
  ToBoolean (footprint (roofSizeHelper negativeFootprintEntered)) = true /\
  leb (footprint (roofSizeHelper negativeFootprintEntered)) (lit 0) = true /\
  calculateRoofSizeHelper negativeFootprintEntered =
    ({| formData := withRoofSize (formData negativeFootprintEntered) (lit 0);
        roofSizeHelper := roofSizeHelper negativeFootprintEntered;
        results := results negativeFootprintEntered;
        showResults := showResults negativeFootprintEntered;
        calculatedRoofSize := Some (lit 0) |}, []).
Proof.
  split; [reflexivity |]. split; [reflexivity |].
  exact (calculateRoofSizeHelper_negative_footprint negativeFootprintEntered
           eq_refl eq_refl).
Defined.

(** ** The form over the reals and in binary64 *)

Lemma Ideal_ltb_true (x y : R) : (x < y)%R -> ltb x y = true.
Proof.
  intros H. cbn. unfold Ideal_lt_bool.
  destruct (Rlt_dec x y); [reflexivity | contradiction].
Qed.

Lemma Ideal_ltb_false (x y : R) : (y <= x)%R -> ltb x y = false.
Proof.
  intros H. cbn. unfold Ideal_lt_bool.
  destruct (Rlt_dec x y); [lra | reflexivity].
Qed.

(** Over the reals [x || 0] is [x]. *)
Lemma Ideal_orElse_0 (x : R) : orElse x (lit 0) = x.
Proof.
  unfold orElse. cbn [ToBoolean Ideal.number]. unfold Ideal.to_boolean.
  destruct (Req_dec_T x 0) as [-> | _]; [apply Ideal_lit_0 | reflexivity].
Qed.

Lemma Ideal_lit_50000 : lit (number := R) 50000 = 50000%R.
Proof. ideal. lra. Qed.

(** The base values of a valid request are positive. *)
Lemma Ideal_adjustedBase_pos (formData : CalculatorFormData R)
    (lowCost highCost : R) :
  (0 < roofSize formData)%R ->
  get (materialPricing (roofingType formData)) (material formData)
    = Some (lowCost, highCost) ->
  (0 < baseLow (adjustedBase formData lowCost highCost))%R /\
  (0 < baseMid (adjustedBase formData lowCost highCost))%R /\
  (0 < baseHigh (adjustedBase formData lowCost highCost))%R.
Proof.
  intros Hsize Hget.
  pose proof (materialPricing_ordered _ _ _ _ Hget) as [Hlow Hle].
  pose proof (adjustedBase_closed_form formData lowCost highCost)
    as (HL & HM & HH).
  pose proof (adjustment_pos formData) as Hk.
  cbv zeta in HL, HM, HH. rewrite HL, HM, HH.
  set (k := adjustment formData) in *.
  set (size := roofSize formData) in *.
  assert (Hsk : (0 < size * k)%R) by (apply Rmult_lt_0_compat; assumption).
  repeat split; nra.
Qed.

Section FormOverReals.

Variable parseFloat : string -> R.
Variable toString : R -> string.

(** X19, over the reals: the size field refuses a negative entry, with a
    toast and no change of state; any other entry is stored capped at
    50,000 and the rest of the state is kept, so the field never stores a
    size outside 0 to 50,000. *)
Theorem handleRoofSizeChange_range (value : string) (st : State) :
  ((parseFloat value < 0)%R /\
   fst (handleRoofSizeChange parseFloat value st) = st /\
   snd (handleRoofSizeChange parseFloat value st) <> []) \/
  ((0 <= parseFloat value)%R /\
   fst (handleRoofSizeChange parseFloat value st)
     = setFormData
         (fun prev => withRoofSize prev (Rmin (parseFloat value) 50000)) st /\
   (0 <= roofSize (formData (fst (handleRoofSizeChange parseFloat value st)))
    <= 50000)%R).
Proof.
  unfold handleRoofSizeChange. rewrite Ideal_orElse_0, Ideal_lit_0.
  rewrite Ideal_lit_50000.
  destruct (Rlt_le_dec (parseFloat value) 0) as [Hneg | Hpos].
  - left. rewrite (Ideal_ltb_true _ _ Hneg). cbn [fst snd].
    split; [exact Hneg |]. split; [reflexivity | discriminate].
  - right. rewrite (Ideal_ltb_false _ _ Hpos). split; [exact Hpos |].
    destruct (Rlt_le_dec 50000 (parseFloat value)) as [Hbig | Hsmall].
    + rewrite (Ideal_ltb_true _ _ Hbig). cbn [fst setFormData formData
        withRoofSize roofSize].
      rewrite Rmin_right by lra. split; [reflexivity | lra].
    + rewrite (Ideal_ltb_false _ _ Hsmall). cbn [fst setFormData formData
        withRoofSize roofSize].
      rewrite Rmin_left by lra. split; [reflexivity | lra].
Qed.

(** X20, over the reals: with a material selected and a negative roof size,
    as the helper can leave one, the calculate button does nothing: no
    toast, no results, the state as before. *)
Theorem calculateCost_negative_size (st : State) :
  (roofSize (formData st) < 0)%R ->
  material (formData st) <> EmptyString ->
  calculateCost st = Return (st, []).
Proof.
  intros Hneg Hmat. unfold calculateCost.
  rewrite Ideal_ToBoolean_true by lra.
  unfold stringToBoolean at 1.
  destruct (String.eqb_spec (material (formData st)) EmptyString)
    as [E | _]; [contradiction |].
  cbn [negb orb].
  rewrite (calculateRoofingCost_guard (formData st)); [reflexivity |].
  right; right. apply Ideal_leb_true. rewrite Ideal_lit_0. lra.
Qed.

(** X21, over the reals: in a reachable state with a positive roof size and
    a material selected, the calculate button shows the breakdown that
    [calculateRoofingCost] returns for the form, without a toast. *)
Theorem calculateCost_shows_estimate (st : State) :
  reachable parseFloat toString st ->
  (0 < roofSize (formData st))%R ->
  material (formData st) <> EmptyString ->
  exists b : CostBreakdown R,
    calculateRoofingCost (formData st) = Return (Some b) /\
    calculateCost st =
      Return ({| formData := formData st;
                 roofSizeHelper := roofSizeHelper st;
                 results := Some b;
                 showResults := true;
                 calculatedRoofSize := calculatedRoofSize st |}, []).
Proof.
  intros Hreach Hsize Hmat.
  destruct (reachable_selectable parseFloat toString st Hreach)
    as [Hempty | [[lowCost highCost] Hget]]; [contradiction |].
  eexists. split; [exact (Ideal_calculateRoofingCost _ _ _ Hsize Hget) |].
  unfold calculateCost.
  rewrite Ideal_ToBoolean_true by lra.
  rewrite (get_materialPricing_nonempty _ _ _ Hget). cbn [negb orb].
  rewrite (Ideal_calculateRoofingCost _ _ _ Hsize Hget). reflexivity.
Qed.

(** X22, over the reals: the cap of 50,000 binds the size field only.  With
    a footprint above 50,000 and an overhang that is not negative, the
    helper stores a roof size above 50,000 in the form, without a toast. *)
Theorem calculateRoofSizeHelper_exceeds_cap (st : State) :
  (50000 < footprint (roofSizeHelper st))%R ->
  (0 <= overhang (roofSizeHelper st))%R ->
  snd (calculateRoofSizeHelper st) = [] /\
  (50000 < roofSize (formData (fst (calculateRoofSizeHelper st))))%R.
Proof.
  intros Hfp Ho.
  assert (Hpos : (0 < footprint (roofSizeHelper st))%R) by lra.
  unfold calculateRoofSizeHelper.
  rewrite Ideal_ToBoolean_true by lra. cbn [negb fst snd formData
    withRoofSize roofSize].
  split; [reflexivity |].
  rewrite (Ideal_calculateRoofSize _ Hpos).
  pose proof (exactRoofArea_lower _ Hpos Ho).
  pose proof (Zfloor_bound (exactRoofArea (roofSizeHelper st) + / 2)).
  lra.
Qed.

(** X23, over the reals: the chart of a valid estimate.  Its slices are
    Materials and Labor, and Add-ons when there are permits or a tear-off on
    a replacement; their values are the [materials], [labor] and [addons] of
    the breakdown, so that the add-ons, which the 60/40 split of the mid
    total already contains, are charted once more. *)
Theorem chartData_of_estimate (st : State) (formData : CalculatorFormData R)
    (lowCost highCost : R) (b : CostBreakdown R) :
  (0 < roofSize formData)%R ->
  get (materialPricing (roofingType formData)) (material formData)
    = Some (lowCost, highCost) ->
  calculateRoofingCost formData = Return (Some b) ->
  results st = Some b ->
  map ChartItem.name (chartData st) =
    (if permits formData
        || (tearoff formData && JobType_eqb (jobType formData) replacement)
     then ["Materials"; "Labor"; "Add-ons"]
     else ["Materials"; "Labor"]) /\
  map ChartItem.value (chartData st) =
    (if permits formData
        || (tearoff formData && JobType_eqb (jobType formData) replacement)
     then [materials b; labor b; addons b]
     else [materials b; labor b]).
Proof.
  intros Hsize Hget Hcalc Hres.
  rewrite (Ideal_calculateRoofingCost _ _ _ Hsize Hget) in Hcalc.
  injection Hcalc as <-.
  pose proof (Ideal_adjustedBase_pos _ _ _ Hsize Hget) as (_ & HM & _).
  pose proof (Ideal_calculateAddons_nonneg (roofSize formData)
                (jobType formData) (tearoff formData) (permits formData)
                Hsize) as Ha.
  unfold chartData. rewrite Hres.
  cbn [finalTotals materials labor addons totalMid filter
       ChartItem.value].
  set (base := adjustedBase formData lowCost highCost) in *.
  assert (Hmat : ltb (lit 0)
                   (mul (add (baseMid base)
                           (calculateAddons (roofSize formData)
                              (jobType formData) (tearoff formData)
                              (permits formData))) (lit 0.6)) = true)
    by (apply Ideal_ltb_true; ideal; lra).
  assert (Hlab : ltb (lit 0)
                   (mul (add (baseMid base)
                           (calculateAddons (roofSize formData)
                              (jobType formData) (tearoff formData)
                              (permits formData))) (lit 0.4)) = true)
    by (apply Ideal_ltb_true; ideal; lra).
  rewrite Hmat, Hlab.
  rewrite Ideal_calculateAddons in *.
  destruct (permits formData),
    (tearoff formData && JobType_eqb (jobType formData) replacement);
    cbn [orb].
  - rewrite Ideal_ltb_true by (ideal; lra). split; reflexivity.
  - rewrite Ideal_ltb_true by (ideal; lra). split; reflexivity.
  - rewrite Ideal_ltb_true by (ideal; lra). split; reflexivity.
  - rewrite Ideal_ltb_false by (ideal; lra). split; reflexivity.
Qed.

End FormOverReals.

(** X24, in binary64: an entry that is not a number, [parseFloat] giving
    [NaN], stores 0 as the roof size, without a toast. *)
Theorem handleRoofSizeChange_NaN (parseFloat : string -> float)
    (value : string) (st : @State float) :
  parseFloat value = nan ->
  handleRoofSizeChange parseFloat value st
  = (setFormData (fun prev => withRoofSize prev 0%float) st, []).
Proof.
  intros Hnan. unfold handleRoofSizeChange. rewrite Hnan. reflexivity.
Qed.

Lemma calculateCost_negative_size_witness :
  (roofSize (formData negativeSizeR) < 0)%R /\
  material (formData negativeSizeR) <> EmptyString /\
  calculateCost negativeSizeR = Return (negativeSizeR, []).
Proof.
  assert (H1 : (roofSize (formData negativeSizeR) < 0)%R) by (cbn; lra).
  assert (H2 : material (formData negativeSizeR) <> EmptyString)
    by discriminate.
  split; [exact H1 |]. split; [exact H2 |].
  exact (calculateCost_negative_size negativeSizeR H1 H2).
Defined.

Lemma asphaltSizedR_reachable :
  reachable (fun _ => 1200%R) (fun _ => "n") asphaltSizedR.
Proof.
  apply (reachable_dispatch (fun _ => 1200%R) (fun _ => "n")
           (changeRoofSize "1200") asphaltSelectedR asphaltSizedR []).
  - apply (reachable_dispatch (fun _ => 1200%R) (fun _ => "n")
             (changeField (materialField "asphalt")) initialState
             asphaltSelectedR []).
    + apply reachable_initial.
    + eexists. split; [reflexivity |]. cbn. left. reflexivity.
    + reflexivity.
  - exact I.
  - unfold dispatch. cbn [handle]. unfold handleRoofSizeChange.
    rewrite Ideal_orElse_0, Ideal_lit_0, Ideal_lit_50000.
    rewrite !Ideal_ltb_false by lra. reflexivity.
Qed.

Lemma calculateCost_shows_estimate_witness :
  reachable (fun _ => 1200%R) (fun _ => "n") asphaltSizedR /\
  (0 < roofSize (formData asphaltSizedR))%R /\
  material (formData asphaltSizedR) <> EmptyString /\
  exists b : CostBreakdown R,
    calculateRoofingCost (formData asphaltSizedR) = Return (Some b) /\
    calculateCost asphaltSizedR =
      Return ({| formData := formData asphaltSizedR;
                 roofSizeHelper := roofSizeHelper asphaltSizedR;
                 results := Some b;
                 showResults := true;
                 calculatedRoofSize := calculatedRoofSize asphaltSizedR |},
              []).
Proof.
  assert (H1 : (0 < roofSize (formData asphaltSizedR))%R) by (cbn; lra).
  assert (H2 : material (formData asphaltSizedR) <> EmptyString)
    by discriminate.
  split; [exact asphaltSizedR_reachable |].
  split; [exact H1 |]. split; [exact H2 |].
  exact (calculateCost_shows_estimate (fun _ => 1200%R) (fun _ => "n")
           asphaltSizedR asphaltSizedR_reachable H1 H2).
Defined.

Lemma calculateRoofSizeHelper_exceeds_cap_witness :
  (50000 < footprint (roofSizeHelper largeFootprintR))%R /\
  (0 <= overhang (roofSizeHelper largeFootprintR))%R /\
  snd (calculateRoofSizeHelper largeFootprintR) = [] /\
  (50000
   < roofSize (formData (fst (calculateRoofSizeHelper largeFootprintR))))%R.
Proof.
  assert (H1 : (50000 < footprint (roofSizeHelper largeFootprintR))%R)
    by (cbn; lra).
  assert (H2 : (0 <= overhang (roofSizeHelper largeFootprintR))%R)
    by (cbn; lra).
  split; [exact H1 |]. split; [exact H2 |].
  exact (calculateRoofSizeHelper_exceeds_cap largeFootprintR H1 H2).
Defined.

Lemma chartData_of_estimate_witness :
  (0 < roofSize (asphaltWithPermits (number := R)))%R /\
  get (materialPricing (number := R) residential) "asphalt"
    = Some (lit 5, lit 10) /\
  calculateRoofingCost asphaltWithPermits = Return (Some permitsBreakdownR) /\
  results estimateShownR = Some permitsBreakdownR /\
  map ChartItem.name (chartData estimateShownR)
    = ["Materials"; "Labor"; "Add-ons"] /\
  map ChartItem.value (chartData estimateShownR)
    = [materials permitsBreakdownR; labor permitsBreakdownR;
       addons permitsBreakdownR].
Proof.
  assert (H1 : (0 < roofSize (asphaltWithPermits (number := R)))%R)
    by (cbn [asphaltWithPermits roofSize]; ideal; lra).
  assert (H3 : calculateRoofingCost asphaltWithPermits
               = Return (Some permitsBreakdownR))
    by exact (Ideal_calculateRoofingCost asphaltWithPermits
                (lit 5) (lit 10) H1 eq_refl).
  split; [exact H1 |]. split; [reflexivity |]. split; [exact H3 |].
  split; [reflexivity |].
  exact (chartData_of_estimate estimateShownR asphaltWithPermits
           (lit 5) (lit 10) permitsBreakdownR H1 eq_refl H3 eq_refl).
Defined.

Lemma handleRoofSizeChange_NaN_witness :
  (fun _ : string => nan) "abc" = nan /\
  handleRoofSizeChange (fun _ : string => nan) "abc" tpoSelected
  = (setFormData (fun prev => withRoofSize prev 0%float) tpoSelected, []).
Proof.
  split; [reflexivity |].
  exact (handleRoofSizeChange_NaN (fun _ : string => nan) "abc"
           tpoSelected eq_refl).
Defined.

(** * Rounded arithmetic: the error of the estimate *)

Section RoundedFacts.

Variable u : R.
Variable rnd : R -> R.
Hypothesis Hstd : Rounded.standard u rnd.

Lemma standard_u : (0 <= u <= / 4)%R.
Proof. exact (proj1 Hstd). Qed.

Lemma rnd_bounds (x : R) :
  (0 <= x)%R -> ((1 - u) * x <= rnd x <= (1 + u) * x)%R.
Proof.
  intros Hx. destruct Hstd as [_ H]. specialize (H x).
  rewrite (Rabs_pos_eq x Hx) in H.
  assert (H1 : (rnd x - x <= u * x)%R)
    by (eapply Rle_trans; [apply Rle_abs | exact H]).
  assert (H2 : (- (rnd x - x) <= u * x)%R)
    by (eapply Rle_trans; [apply Rle_abs | rewrite Rabs_Ropp; exact H]).
  lra.
Qed.

Lemma rnd_0 : rnd 0 = 0%R.
Proof. pose proof (rnd_bounds 0 (Rle_refl 0)). lra. Qed.

Lemma pow_low (n : nat) : (0 < (1 - u) ^ n <= 1)%R.
Proof.
  pose proof standard_u as Hu. split.
  - apply pow_lt. lra.
  - induction n as [| n IH]; cbn [pow]; [lra |].
    assert (0 < (1 - u) ^ n)%R by (apply pow_lt; lra). nra.
Qed.

Lemma pow_high (n : nat) : (1 <= (1 + u) ^ n)%R.
Proof. pose proof standard_u. apply pow_R1_Rle. lra. Qed.

Lemma approx_nonneg (n : nat) (x y : R) :
  Rounded.approx u n x y -> (0 <= x)%R.
Proof.
  intros [Hy [Hl _]]. pose proof (pow_low n) as [Hp _].
  eapply Rle_trans; [| exact Hl]. apply Rmult_le_pos; lra.
Qed.

Lemma approx_exact (x : R) : (0 <= x)%R -> Rounded.approx u 0 x x.
Proof. intros Hx. split; [exact Hx |]. cbn [pow]. lra. Qed.

Lemma approx_weaken (n k : nat) (x y : R) :
  Rounded.approx u n x y -> Rounded.approx u (n + k) x y.
Proof.
  intros [Hy [Hl Hh]]. split; [exact Hy |]. rewrite !pow_add.
  pose proof (pow_low n) as [Hn0 Hn1]. pose proof (pow_low k) as [Hk0 Hk1].
  pose proof (pow_high n) as Hn. pose proof (pow_high k) as Hk.
  set (a := ((1 - u) ^ n)%R) in *. set (a' := ((1 - u) ^ k)%R) in *.
  set (c := ((1 + u) ^ n)%R) in *. set (c' := ((1 + u) ^ k)%R) in *.
  assert (Ha : (0 <= a * y)%R) by (apply Rmult_le_pos; lra).
  assert (Hc : (0 <= c * y)%R) by (apply Rmult_le_pos; lra).
  split.
  - eapply Rle_trans; [| exact Hl]. nra.
  - eapply Rle_trans; [exact Hh |]. nra.
Qed.

Lemma approx_le (n m : nat) (x y : R) :
  (n <= m)%nat -> Rounded.approx u n x y -> Rounded.approx u m x y.
Proof.
  intros Hnm H. replace m with (n + (m - n))%nat by lia.
  now apply approx_weaken.
Qed.

Lemma approx_rnd (n : nat) (x y : R) :
  Rounded.approx u n x y -> Rounded.approx u (S n) (rnd x) y.
Proof.
  intros H. pose proof (approx_nonneg _ _ _ H) as Hx.
  destruct H as [Hy [Hl Hh]]. split; [exact Hy |].
  pose proof (rnd_bounds x Hx) as [Rl Rh]. pose proof standard_u as Hu.
  pose proof (pow_low n) as [Hn0 _]. pose proof (pow_high n) as Hn.
  cbn [pow]. split.
  - eapply Rle_trans; [| exact Rl].
    rewrite Rmult_assoc. apply Rmult_le_compat_l; lra.
  - eapply Rle_trans; [exact Rh |].
    rewrite Rmult_assoc. apply Rmult_le_compat_l; lra.
Qed.

Lemma approx_mul (n m : nat) (x y x' y' : R) :
  Rounded.approx u n x y -> Rounded.approx u m x' y' ->
  Rounded.approx u (n + m) (x * x') (y * y').
Proof.
  intros H H'. pose proof (approx_nonneg _ _ _ H) as Hx.
  pose proof (approx_nonneg _ _ _ H') as Hx'.
  destruct H as [Hy [Hl Hh]]. destruct H' as [Hy' [Hl' Hh']].
  split; [apply Rmult_le_pos; assumption |]. rewrite !pow_add.
  pose proof (pow_low n) as [Hn0 _]. pose proof (pow_low m) as [Hm0 _].
  split.
  - replace ((1 - u) ^ n * (1 - u) ^ m * (y * y'))%R
      with (((1 - u) ^ n * y) * ((1 - u) ^ m * y'))%R by ring.
    apply Rmult_le_compat; try assumption; apply Rmult_le_pos; lra.
  - replace ((1 + u) ^ n * (1 + u) ^ m * (y * y'))%R
      with (((1 + u) ^ n * y) * ((1 + u) ^ m * y'))%R by ring.
    apply Rmult_le_compat; assumption.
Qed.

Lemma approx_add (n : nat) (x y x' y' : R) :
  Rounded.approx u n x y -> Rounded.approx u n x' y' ->
  Rounded.approx u n (x + x') (y + y').
Proof.
  intros [Hy [Hl Hh]] [Hy' [Hl' Hh']]. split; [lra |]. split; lra.
Qed.

(** A quotient by a value that is positive up to one rounding. *)
Lemma approx_div (n : nat) (x y d e : R) :
  (0 < e)%R -> Rounded.approx u n x y -> Rounded.approx u 1 d e ->
  Rounded.approx u (n + 2) (x / d) (y / e).
Proof.
  intros He H Hd. pose proof (approx_nonneg _ _ _ H) as Hx.
  destruct H as [Hy [Hl Hh]]. destruct Hd as [_ [Dl Dh]].
  pose proof standard_u as Hu. cbn [pow] in Dl, Dh.
  assert (Hd0 : (0 < d)%R) by nra.
  assert (Hye : (0 <= y / e)%R)
    by (apply Rmult_le_pos; [lra | left; now apply Rinv_0_lt_compat]).
  split; [exact Hye |]. rewrite !pow_add.
  pose proof (pow_low n) as [Hn0 _]. pose proof (pow_high n) as Hn.
  set (a := ((1 - u) ^ n)%R) in *. set (c := ((1 + u) ^ n)%R) in *.
  assert (Hy' : y = (y / e * e)%R) by (field; lra).
  assert (Hx' : (x / d * d = x)%R) by (field; lra).
  set (q := (y / e)%R) in *. set (r := (x / d)%R) in *.
  assert (Hr : (0 <= r)%R)
    by (unfold r; apply Rmult_le_pos;
        [lra | left; now apply Rinv_0_lt_compat]).
  cbn [pow]. rewrite Hy' in Hl, Hh. rewrite <- Hx' in Hl, Hh.
  assert (Haq : (0 <= a * q)%R) by (apply Rmult_le_pos; lra).
  assert (Hcq : (0 <= c * q)%R) by (apply Rmult_le_pos; lra).
  assert (Hrd : (r * d <= r * ((1 + u) * e))%R)
    by (apply Rmult_le_compat_l; lra).
  assert (Hrd' : (r * ((1 - u) * e) <= r * d)%R)
    by (apply Rmult_le_compat_l; lra).
  assert (H2 : (a * q <= r * (1 + u))%R).
  { apply (Rmult_le_reg_r e); [exact He |]. lra. }
  assert (H2' : (r * (1 - u) <= c * q)%R).
  { apply (Rmult_le_reg_r e); [exact He |]. lra. }
  assert (Hu2 : (0 <= (1 - u) * (1 - u))%R) by nra.
  assert (Hu3 : ((1 + u) * ((1 - u) * (1 - u)) <= 1)%R) by nra.
  assert (Hu4 : (1 <= (1 - u) * ((1 + u) * (1 + u)))%R) by nra.
  assert (Hu5 : (0 <= (1 + u) * (1 + u))%R) by nra.
  split.
  - apply Rle_trans with (r * ((1 + u) * ((1 - u) * (1 - u))))%R.
    + replace (a * ((1 - u) * ((1 - u) * 1)) * q)%R
        with (a * q * ((1 - u) * (1 - u)))%R by ring.
      replace (r * ((1 + u) * ((1 - u) * (1 - u))))%R
        with (r * (1 + u) * ((1 - u) * (1 - u)))%R by ring.
      apply Rmult_le_compat_r; assumption.
    + rewrite <- (Rmult_1_r r) at 2. apply Rmult_le_compat_l; assumption.
  - apply Rle_trans with (r * ((1 - u) * ((1 + u) * (1 + u))))%R.
    + rewrite <- (Rmult_1_r r) at 1. apply Rmult_le_compat_l; assumption.
    + replace (r * ((1 - u) * ((1 + u) * (1 + u))))%R
        with (r * (1 - u) * ((1 + u) * (1 + u)))%R by ring.
      replace (c * ((1 + u) * ((1 + u) * 1)) * q)%R
        with (c * q * ((1 + u) * (1 + u)))%R by ring.
      apply Rmult_le_compat_r; assumption.
Qed.

(** A literal that is not negative. *)
Lemma approx_lit (q : Q) :
  (0 <= Qnum q)%Z ->
  Rounded.approx u 1 (@lit R (Rounded.number rnd) q) (@lit R Ideal.number q).
Proof.
  intros Hq. cbn [lit Rounded.number Ideal.number].
  apply (approx_rnd 0). apply approx_exact.
  unfold Q2R. apply Rmult_le_pos; [now apply IZR_le |].
  left. apply Rinv_0_lt_compat. apply IZR_lt. reflexivity.
Qed.

(** ** The steps of the estimate, rounded against exact *)

Lemma get_materialPricing_rounded (rt : RoofingType) (m : string) :
  get (@materialPricing R (Rounded.number rnd) rt) m =
    option_map (fun p => (rnd (fst p), rnd (snd p)))
      (get (@materialPricing R Ideal.number rt) m).
Proof.
  destruct rt; cbn [materialPricing get];
    repeat (destruct (String.eqb m _); [reflexivity |]); reflexivity.
Qed.

Lemma approx_baseCost (size lowCost highCost : R) :
  (0 <= size)%R -> (0 <= lowCost)%R -> (0 <= highCost)%R ->
  Rounded.approxBase u 6
    (@baseCost R (Rounded.number rnd) size (rnd lowCost) (rnd highCost))
    (@baseCost R Ideal.number size lowCost highCost).
Proof.
  intros Hs Hl Hh.
  pose proof (approx_rnd 0 _ _ (approx_exact lowCost Hl)) as Al.
  pose proof (approx_rnd 0 _ _ (approx_exact highCost Hh)) as Ah.
  pose proof (approx_exact size Hs) as As.
  unfold baseCost, Rounded.approxBase.
  cbn [baseLow baseMid baseHigh mul add div Rounded.number Ideal.number].
  split; [| split].
  - apply (approx_le 2 6); [lia |].
    apply approx_rnd. exact (approx_mul 0 1 _ _ _ _ As Al).
  - apply approx_rnd. apply (approx_mul 0 5 _ _ _ _ As).
    apply approx_rnd. apply (approx_div 2).
    + unfold Q2R; cbn; lra.
    + apply approx_rnd. now apply approx_add.
    + apply (approx_lit 2). cbn. lia.
  - apply (approx_le 2 6); [lia |].
    apply approx_rnd. exact (approx_mul 0 1 _ _ _ _ As Ah).
Qed.

Lemma approx_scale (n m : nat) (k k' : R) (b b' : Base R) :
  Rounded.approx u m k k' ->
  Rounded.approxBase u n b b' ->
  Rounded.approxBase u (S (n + m))
    (@scale R (Rounded.number rnd) k b) (@scale R Ideal.number k' b').
Proof.
  intros Hk (HL & HM & HH). unfold scale, Rounded.approxBase.
  cbn [baseLow baseMid baseHigh mul Rounded.number Ideal.number].
  split; [| split]; apply approx_rnd; now apply approx_mul.
Qed.

Lemma approxBase_le (n m : nat) (b b' : Base R) :
  (n <= m)%nat -> Rounded.approxBase u n b b' ->
  Rounded.approxBase u m b b'.
Proof.
  intros Hnm (HL & HM & HH).
  split; [| split]; now apply (approx_le n m).
Qed.

Lemma approx_laborMultiplier (cx : ComplexityType) :
  Rounded.approx u 4
    (@add R (Rounded.number rnd) (@lit R (Rounded.number rnd) 1)
       (@mul R (Rounded.number rnd)
          (@complexityMultipliers R (Rounded.number rnd) cx)
          (@lit R (Rounded.number rnd) 0.4)))
    (@add R Ideal.number (@lit R Ideal.number 1)
       (@mul R Ideal.number
          (@complexityMultipliers R Ideal.number cx)
          (@lit R Ideal.number 0.4))).
Proof.
  assert (Hc : exists q : Q,
             (0 <= Qnum q)%Z /\
             @complexityMultipliers R (Rounded.number rnd) cx
               = lit (JSNumber := Rounded.number rnd) q /\
             @complexityMultipliers R Ideal.number cx
               = lit (JSNumber := Ideal.number) q)
    by (destruct cx; eexists; (split; [| split; reflexivity]); cbn; lia).
  destruct Hc as (q & Hq & -> & ->).
  cbn [add mul Rounded.number Ideal.number].
  apply approx_rnd. apply approx_add.
  - apply (approx_le 1 3); [lia |]. apply approx_lit. cbn. lia.
  - apply approx_rnd. apply (approx_mul 1 1).
    + now apply approx_lit.
    + apply approx_lit. cbn. lia.
Qed.

Lemma approx_applyComplexity (n : nat) (cx : ComplexityType)
    (b b' : Base R) :
  Rounded.approxBase u n b b' ->
  Rounded.approxBase u (n + 5)
    (@applyComplexity R (Rounded.number rnd) cx b)
    (@applyComplexity R Ideal.number cx b').
Proof.
  intros Hb. unfold applyComplexity.
  replace (n + 5)%nat with (S (n + 4)) by lia.
  apply approx_scale; [apply approx_laborMultiplier | exact Hb].
Qed.

Lemma approx_applyCommercial (n : nat) (rt : RoofingType) (b b' : Base R) :
  Rounded.approxBase u n b b' ->
  Rounded.approxBase u (n + 2)
    (@applyCommercial R (Rounded.number rnd) rt b)
    (@applyCommercial R Ideal.number rt b').
Proof.
  intros Hb. unfold applyCommercial.
  destruct (RoofingType_eqb rt commercial).
  - replace (n + 2)%nat with (S (n + 1)) by lia.
    apply approx_scale; [| exact Hb].
    apply approx_lit. cbn. lia.
  - apply (approxBase_le n); [lia | exact Hb].
Qed.

Lemma approx_applyJobType (n : nat) (jt : JobType) (b b' : Base R) :
  Rounded.approxBase u n b b' ->
  Rounded.approxBase u (n + 2)
    (@applyJobType R (Rounded.number rnd) jt b)
    (@applyJobType R Ideal.number jt b').
Proof.
  intros Hb. unfold applyJobType.
  destruct (JobType_eqb jt repair).
  - replace (n + 2)%nat with (S (n + 1)) by lia.
    apply approx_scale; [| exact Hb].
    apply approx_lit. cbn. lia.
  - apply (approxBase_le n); [lia | exact Hb].
Qed.

Lemma approx_calculateAddons (size : R) (jt : JobType) (tear perm : bool) :
  (0 <= size)%R ->
  Rounded.approx u 4
    (@calculateAddons R (Rounded.number rnd) size jt tear perm)
    (@calculateAddons R Ideal.number size jt tear perm).
Proof.
  intros Hs. unfold calculateAddons.
  assert (A0 : Rounded.approx u 1
                 (lit (JSNumber := Rounded.number rnd) 0)
                 (lit (JSNumber := Ideal.number) 0))
    by (apply approx_lit; cbn; lia).
  assert (A1 : Rounded.approx u 3
                 (if tear && JobType_eqb jt replacement
                  then @add R (Rounded.number rnd)
                         (@lit R (Rounded.number rnd) 0)
                         (@mul R (Rounded.number rnd) size
                            (@lit R (Rounded.number rnd) 1.5))
                  else @lit R (Rounded.number rnd) 0)
                 (if tear && JobType_eqb jt replacement
                  then @add R Ideal.number (@lit R Ideal.number 0)
                         (@mul R Ideal.number size (@lit R Ideal.number 1.5))
                  else @lit R Ideal.number 0)).
  { destruct (tear && JobType_eqb jt replacement).
    - cbn [add mul Rounded.number Ideal.number].
      apply approx_rnd. apply approx_add.
      + apply (approx_le 1 2); [lia | exact A0].
      + apply approx_rnd. apply (approx_mul 0 1).
        * now apply approx_exact.
        * apply approx_lit. cbn. lia.
    - apply (approx_le 1 3); [lia | exact A0]. }
  cbv zeta. destruct perm.
  - cbn [add Rounded.number Ideal.number] in *.
    apply approx_rnd. apply approx_add; [exact A1 |].
    apply (approx_le 1 3); [lia |].
    apply approx_lit. cbn. lia.
  - apply (approx_le 3 4); [lia | exact A1].
Qed.

Lemma approx_finalTotals (b b' : Base R) (a a' : R) :
  Rounded.approxBase u 15 b b' ->
  Rounded.approx u 4 a a' ->
  let r := @finalTotals R (Rounded.number rnd) b a in
  let i := @finalTotals R Ideal.number b' a' in
  Rounded.approx u 16 (totalLow r) (totalLow i) /\
  Rounded.approx u 16 (totalMid r) (totalMid i) /\
  Rounded.approx u 16 (totalHigh r) (totalHigh i) /\
  Rounded.approx u 18 (materials r) (materials i) /\
  Rounded.approx u 18 (labor r) (labor i) /\
  Rounded.approx u 4 (addons r) (addons i).
Proof.
  intros (HL & HM & HH) Ha. cbv zeta. unfold finalTotals.
  cbn [totalLow totalMid totalHigh materials labor addons
       add mul Rounded.number Ideal.number].
  pose proof (approx_le 4 15 _ _ ltac:(lia) Ha) as Ha'.
  assert (TM : Rounded.approx u 16 (rnd (baseMid b + a))
                 (baseMid b' + a'))
    by (apply approx_rnd; now apply approx_add).
  split; [| split; [exact TM | split; [| split; [| split; [| exact Ha]]]]].
  - apply approx_rnd. now apply approx_add.
  - apply approx_rnd. now apply approx_add.
  - apply approx_rnd. apply (approx_mul 16 1); [exact TM |].
    apply approx_lit. cbn. lia.
  - apply approx_rnd. apply (approx_mul 16 1); [exact TM |].
    apply approx_lit. cbn. lia.
Qed.

(** A positive size passes the guard in rounded arithmetic. *)
Lemma Rounded_positive_size (x : R) :
  (0 < x)%R ->
  @ToBoolean R (Rounded.number rnd) x = true /\
  @leb R (Rounded.number rnd) x (@lit R (Rounded.number rnd) 0) = false.
Proof.
  intros Hx. cbn [ToBoolean leb lit Rounded.number]. split.
  - unfold Ideal.to_boolean. destruct (Req_dec_T x 0); [lra | reflexivity].
  - replace (Q2R 0) with 0%R by (unfold Q2R; cbn; lra). rewrite rnd_0.
    unfold Ideal.le_bool. destruct (Rle_dec x 0); [lra | reflexivity].
Qed.

(** The estimate of a valid request in rounded arithmetic, against the
    exact one: the totals agree up to 16 roundings, materials and labor up
    to 18, the add-ons up to 4. *)
Lemma rounded_estimate (formData : CalculatorFormData R)
    (lowCost highCost : R) :
  (0 < roofSize formData)%R ->
  get (@materialPricing R Ideal.number (roofingType formData))
    (material formData) = Some (lowCost, highCost) ->
  exists r i : CostBreakdown R,
    @calculateRoofingCost R (Rounded.number rnd) formData
      = Return (Some r) /\
    @calculateRoofingCost R Ideal.number formData = Return (Some i) /\
    Rounded.approx u 16 (totalLow r) (totalLow i) /\
    Rounded.approx u 16 (totalMid r) (totalMid i) /\
    Rounded.approx u 16 (totalHigh r) (totalHigh i) /\
    Rounded.approx u 18 (materials r) (materials i) /\
    Rounded.approx u 18 (labor r) (labor i) /\
    Rounded.approx u 4 (addons r) (addons i).
Proof.
  intros Hsize Hget.
  destruct (Rounded_positive_size _ Hsize) as [Ht Hp].
  assert (Hget' : get (@materialPricing R (Rounded.number rnd)
                         (roofingType formData)) (material formData)
                  = Some (rnd lowCost, rnd highCost))
    by (rewrite get_materialPricing_rounded, Hget; reflexivity).
  rewrite (@calculateRoofingCost_entry R (Rounded.number rnd)
             formData _ _ Ht Hp Hget').
  rewrite (Ideal_calculateRoofingCost formData _ _ Hsize Hget).
  do 2 eexists. split; [reflexivity |]. split; [reflexivity |].
  pose proof (materialPricing_ordered _ _ _ _ Hget) as [Hlow Hle].
  apply approx_finalTotals.
  - unfold adjustedBase.
    apply (approx_applyJobType 13), (approx_applyCommercial 11),
      (approx_applyComplexity 6).
    apply approx_baseCost; lra.
  - apply approx_calculateAddons. lra.
Qed.

End RoundedFacts.

(** ** What the rounded estimate keeps of the exact one *)

Section RoundedClaims.

Variable u : R.
Variable rnd : R -> R.
Hypothesis Hstd : Rounded.standard u rnd.

(** Two values that are each a given value up to [n] roundings agree up to
    [n] roundings each, also after a scaling of the given value. *)
Lemma approx_agree (n : nat) (x x' y k : R) :
  (0 < k)%R ->
  Rounded.approx u n x y -> Rounded.approx u n x' (k * y) ->
  Rounded.agree u n x' (k * x).
Proof.
  intros Hk [Hy [Hl Hh]] [_ [Hl' Hh']].
  pose proof (pow_low u rnd Hstd n) as [Ha0 _].
  pose proof (pow_high u rnd Hstd n) as Hc.
  unfold Rounded.agree.
  set (a := ((1 - u) ^ n)%R) in *. set (c := ((1 + u) ^ n)%R) in *.
  split.
  - apply Rle_trans with (c * (k * (a * y)))%R.
    + replace (c * (k * (a * y)))%R with (a * (c * (k * y)))%R by ring.
      apply Rmult_le_compat_l; lra.
    + apply Rmult_le_compat_l; [lra |].
      apply Rmult_le_compat_l; lra.
  - apply Rle_trans with (c * (a * (k * y)))%R.
    + replace (a * (k * x))%R with (k * (a * x))%R by ring.
      replace (c * (a * (k * y)))%R with (k * (a * (c * y)))%R by ring.
      apply Rmult_le_compat_l; [lra |].
      apply Rmult_le_compat_l; lra.
    + apply Rmult_le_compat_l; lra.
Qed.

Lemma approx_agree_same (n : nat) (x x' y : R) :
  Rounded.approx u n x y -> Rounded.approx u n x' y ->
  Rounded.agree u n x' x.
Proof.
  intros H H'. rewrite <- (Rmult_1_l x).
  apply (approx_agree n x x' y 1); [lra | exact H |].
  now rewrite Rmult_1_l.
Qed.

(** The entry of a material in the rounded catalog is the rounding of its
    entry in the exact one. *)
Lemma get_materialPricing_exact (rt : RoofingType) (m : string)
    (lowCost highCost : R) :
  get (@materialPricing R (Rounded.number rnd) rt) m
    = Some (lowCost, highCost) ->
  exists low high : R,
    get (@materialPricing R Ideal.number rt) m = Some (low, high) /\
    lowCost = rnd low /\ highCost = rnd high.
Proof.
  rewrite get_materialPricing_rounded.
  destruct (get (@materialPricing R Ideal.number rt) m) as [[low high] |];
    cbn [option_map fst snd]; [| discriminate].
  intros [= <- <-]. exists low, high. repeat split.
Qed.


(** C9, as the code has it, in rounded arithmetic: without tear-off and
    permits the estimate is homogeneous in the area up to rounding.  For
    [a > 0] and [k > 0], each total for the area [k * a] and [k] times the
    total for [a] agree up to the 16 roundings on the way to a total, and
    materials and labor up to 18; no cap on the area enters.  With [u = 0]
    the values are equal. *)
Theorem homogeneous_in_area_up_to_rounding
    (formData : CalculatorFormData R) (lowCost highCost a k : R) :
  tearoff formData = false ->
  permits formData = false ->
  get (@materialPricing R (Rounded.number rnd) (roofingType formData))
    (material formData) = Some (lowCost, highCost) ->
  (0 < a)%R -> (0 < k)%R ->
  exists b bk : CostBreakdown R,
    @calculateRoofingCost R (Rounded.number rnd) (withRoofSize formData a)
      = Return (Some b) /\
    @calculateRoofingCost R (Rounded.number rnd)
      (withRoofSize formData (k * a)%R) = Return (Some bk) /\
    Rounded.agree u 16 (totalLow bk) (k * totalLow b) /\
    Rounded.agree u 16 (totalMid bk) (k * totalMid b) /\
    Rounded.agree u 16 (totalHigh bk) (k * totalHigh b) /\
    Rounded.agree u 18 (materials bk) (k * materials b) /\
    Rounded.agree u 18 (labor bk) (k * labor b).
Proof.
  intros Htear Hperm Hget Ha Hk.
  destruct (get_materialPricing_exact _ _ _ _ Hget)
    as (low & high & Hexact & _ & _).
  assert (Hka : (0 < k * a)%R) by (apply Rmult_lt_0_compat; assumption).
  destruct (rounded_estimate u rnd Hstd (withRoofSize formData a)
              low high Ha Hexact)
    as (r & i & Hr & Hi & HL & HM & HH & Hma & Hla & _).
  destruct (rounded_estimate u rnd Hstd (withRoofSize formData (k * a)%R)
              low high Hka Hexact)
    as (rk & ik & Hrk & Hik & HLk & HMk & HHk & Hmak & Hlak & _).
  destruct (homogeneous_in_area formData low high a k
              Htear Hperm Hexact Ha Hk)
    as (i' & ik' & Hi' & Hik' & EL & EM & EH & Ema & Ela).
  rewrite Hi in Hi'. injection Hi' as <-.
  rewrite Hik in Hik'. injection Hik' as <-.
  rewrite EL in HLk. rewrite EM in HMk. rewrite EH in HHk.
  rewrite Ema in Hmak. rewrite Ela in Hlak.
  exists r, rk. split; [exact Hr |]. split; [exact Hrk |].
  split; [exact (approx_agree 16 _ _ _ k Hk HL HLk) |].
  split; [exact (approx_agree 16 _ _ _ k Hk HM HMk) |].
  split; [exact (approx_agree 16 _ _ _ k Hk HH HHk) |].
  split; [exact (approx_agree 18 _ _ _ k Hk Hma Hmak) |].
  exact (approx_agree 18 _ _ _ k Hk Hla Hlak).
Qed.

(** X6, in rounded arithmetic: the mid total of a valid request and the
    midpoint of its low and high totals agree up to the 16 roundings on
    the way to a total; with [u = 0] they are equal. *)
Theorem totalMid_is_midpoint_up_to_rounding
    (formData : CalculatorFormData R) (lowCost highCost : R) :
  (0 < roofSize formData)%R ->
  get (@materialPricing R (Rounded.number rnd) (roofingType formData))
    (material formData) = Some (lowCost, highCost) ->
  exists b : CostBreakdown R,
    @calculateRoofingCost R (Rounded.number rnd) formData
      = Return (Some b) /\
    Rounded.agree u 16 (totalMid b) ((totalLow b + totalHigh b) / 2).
Proof.
  intros Hsize Hget.
  destruct (get_materialPricing_exact _ _ _ _ Hget)
    as (low & high & Hexact & _ & _).
  destruct (rounded_estimate u rnd Hstd formData low high Hsize Hexact)
    as (r & i & Hr & Hi & HL & HM & HH & _).
  destruct (totalMid_is_midpoint formData low high Hsize Hexact)
    as (i' & Hi' & Emid).
  rewrite Hi in Hi'. injection Hi' as <-.
  exists r. split; [exact Hr |].
  apply (approx_agree_same 16 _ _ (totalMid i)); [| exact HM].
  rewrite Emid.
  destruct (approx_add u 16 _ _ _ _ HL HH) as [H0 [Hlo Hhi]].
  split; [lra |]. split; lra.
Qed.

(** The area before rounding, in rounded arithmetic against the exact
    one, for an overhang that is not negative. *)
Lemma approx_roofArea (fp o : R) (p : PitchType) :
  (0 <= fp)%R -> (0 <= o)%R ->
  Rounded.approx u 12
    (rnd (rnd (rnd (fp + rnd (rnd (rnd (@lit R (Rounded.number rnd) 4
                                          * rnd (R_sqrt.sqrt fp)) * o)
                              / @lit R (Rounded.number rnd) 12))
               * @pitchMultipliers R (Rounded.number rnd) p)
          * @lit R (Rounded.number rnd) 1.125))
    ((fp + @lit R Ideal.number 4 * R_sqrt.sqrt fp * o
           / @lit R Ideal.number 12)
     * @pitchMultipliers R Ideal.number p * @lit R Ideal.number 1.125).
Proof.
  intros Hfp Ho.
  assert (Hp : Rounded.approx u 1 (@pitchMultipliers R (Rounded.number rnd) p)
                 (@pitchMultipliers R Ideal.number p))
    by (destruct p; apply approx_lit; try exact Hstd; cbn; lia).
  apply approx_rnd; [exact Hstd |].
  apply (approx_mul u rnd Hstd 10 1); [| apply approx_lit; [exact Hstd |]; cbn; lia].
  apply approx_rnd; [exact Hstd |].
  apply (approx_mul u rnd Hstd 8 1); [| exact Hp].
  apply approx_rnd; [exact Hstd |].
  apply approx_add.
  - apply (approx_le u rnd Hstd 0 7); [lia | now apply approx_exact].
  - apply approx_rnd; [exact Hstd |].
    apply (approx_div u rnd Hstd 4).
    + ideal. lra.
    + apply approx_rnd; [exact Hstd |].
      apply (approx_mul u rnd Hstd 3 0); [| now apply approx_exact].
      apply approx_rnd; [exact Hstd |].
      apply (approx_mul u rnd Hstd 1 1).
      * apply approx_lit; [exact Hstd |]. cbn. lia.
      * apply (approx_rnd u rnd Hstd 0). apply approx_exact.
        apply sqrt_pos.
    + apply approx_lit; [exact Hstd |]. cbn. lia.
Qed.

(** X11, in rounded arithmetic: for a positive footprint and an overhang
    that is not negative, [calculateRoofSize] is an integer within one half
    of the area before rounding, up to the 12 roundings on the way to that
    area. *)
Theorem calculateRoofSize_rounds_to_nearest_up_to_rounding
    (data : RoofSizeHelperData R) :
  (0 < footprint data)%R -> (0 <= overhang data)%R ->
  (exists z : Z,
     @calculateRoofSize R (Rounded.number rnd) data = IZR z) /\
  ((1 - u) ^ 12 * exactRoofArea data - / 2
   < @calculateRoofSize R (Rounded.number rnd) data
   <= (1 + u) ^ 12 * exactRoofArea data + / 2)%R.
Proof.
  intros Hfp Ho.
  destruct (Rounded_positive_size u rnd Hstd _ Hfp) as [Ht Hp].
  unfold calculateRoofSize. rewrite Ht, Hp. cbn [negb orb].
  cbn [Math_round Math_sqrt add mul div Rounded.number].
  unfold Ideal.round.
  split; [eexists; reflexivity |].
  pose proof (approx_roofArea (footprint data) (overhang data) (pitch data)
                ltac:(lra) Ho) as [_ [Hlo Hhi]].
  replace ((footprint data
            + @lit R Ideal.number 4 * R_sqrt.sqrt (footprint data)
              * overhang data / @lit R Ideal.number 12)
           * @pitchMultipliers R Ideal.number (pitch data)
           * @lit R Ideal.number 1.125)%R
    with (exactRoofArea data) in Hlo, Hhi
    by (unfold exactRoofArea; ideal; field).
  match goal with
  | |- context [Zfloor (?x + / 2)] =>
      pose proof (Zfloor_bound (x + / 2)) as Hz
  end.
  lra.
Qed.

End RoundedClaims.

(** The rounding [roundUp] meets the standard model with [u = 2^-53]. *)
Lemma roundUp_standard : Rounded.standard (/ 9007199254740992) roundUp.
Proof.
  split; [lra |]. intros x. unfold roundUp.
  replace (x * (1 + / 9007199254740992) - x)%R
    with (x * / 9007199254740992)%R by ring.
  rewrite Rabs_mult, (Rabs_pos_eq (/ 9007199254740992)) by lra. lra.
Qed.

Lemma roundUp_pos (x : R) : (0 < x)%R -> (0 < roundUp x)%R.
Proof. intros H. unfold roundUp. nra. Qed.


(** In binary64, at a size where the rounding shows: for commercial TPO,
    complex, with permits and 4213 sq ft, [materials + labor] and [totalMid]
    differ in the last place, and the three components exceed [totalMid] by
    the 500 of the add-ons up to that. *)
Lemma breakdown_sum_binary64_example :
  exists b : CostBreakdown float,
    calculateRoofingCost (withRoofSize tpoComplexWithPermits 4213%float)
      = Return (Some b) /\
    PrimFloat.eqb (materials b + labor b)%float (totalMid b) = false /\
    PrimFloat.ltb
      (PrimFloat.abs ((materials b + labor b)%float - totalMid b)) 1e-10
      = true /\
    PrimFloat.ltb
      (PrimFloat.abs ((materials b + labor b + addons b)%float
                      - totalMid b - 500)) 1e-10
      = true.
Proof.
  eexists. split; [vm_compute; reflexivity |].
  repeat split; vm_compute; reflexivity.
Qed.

Lemma homogeneous_in_area_up_to_rounding_witness :
  Rounded.standard (/ 9007199254740992) roundUp /\
  tearoff (@tpoComplexPlain R (Rounded.number roundUp) 0%R) = false /\
  permits (@tpoComplexPlain R (Rounded.number roundUp) 0%R) = false /\
  get (@materialPricing R (Rounded.number roundUp) commercial) "tpo"
    = Some (@lit R (Rounded.number roundUp) 4,
            @lit R (Rounded.number roundUp) 8) /\
  (0 < 50000)%R /\ (0 < 3)%R /\
  exists b bk : CostBreakdown R,
    @calculateRoofingCost R (Rounded.number roundUp)
      (tpoComplexPlain 50000%R) = Return (Some b) /\
    @calculateRoofingCost R (Rounded.number roundUp)
      (tpoComplexPlain (3 * 50000)%R) = Return (Some bk) /\
    Rounded.agree (/ 9007199254740992) 16 (totalLow bk) (3 * totalLow b) /\
    Rounded.agree (/ 9007199254740992) 16 (totalMid bk) (3 * totalMid b) /\
    Rounded.agree (/ 9007199254740992) 16 (totalHigh bk) (3 * totalHigh b) /\
    Rounded.agree (/ 9007199254740992) 18 (materials bk) (3 * materials b) /\
    Rounded.agree (/ 9007199254740992) 18 (labor bk) (3 * labor b).
Proof.
  assert (Ha : (0 < 50000)%R) by lra.
  assert (Hk : (0 < 3)%R) by lra.
  split; [exact roundUp_standard |].
  do 3 (split; [reflexivity |]).
  split; [exact Ha |]. split; [exact Hk |].
  exact (homogeneous_in_area_up_to_rounding (/ 9007199254740992) roundUp
           roundUp_standard (@tpoComplexPlain R (Rounded.number roundUp) 0%R)
           _ _ 50000%R 3%R eq_refl eq_refl eq_refl Ha Hk).
Defined.

(** C9, as stated, fails in binary64: for commercial TPO, complex, no
    add-on, the low total for 3 * 1000 sq ft is not 3 times the low total
    for 1000 sq ft (15312.000000000004 against 15312.000000000005). *)
Lemma homogeneous_in_area_fails_in_binary64 :
  exists b bk : CostBreakdown float,
    calculateRoofingCost (tpoComplexPlain 1000%float) = Return (Some b) /\
    calculateRoofingCost (tpoComplexPlain (3 * 1000)%float)
      = Return (Some bk) /\
    totalLow bk = 15312.000000000004%float /\
    (3 * totalLow b)%float = 15312.000000000005%float /\
    totalLow bk <> (3 * totalLow b)%float.
Proof.
  do 2 eexists. split; [vm_compute; reflexivity |].
  split; [vm_compute; reflexivity |].
  split; [vm_compute; reflexivity |].
  split; [vm_compute; reflexivity |].
  intros H. apply (f_equal (fun x => PrimFloat.eqb x 15312.000000000004)) in H.
  vm_compute in H. discriminate.
Qed.

(** C5, as the code has it.  At every number type, for every request past
    the guard with a price pair, each total is its base value taken through
    the multipliers in the order complexity, commercial premium, repair
    reduction, plus the add-ons.  In binary64, commercial TPO (4 to 8), 1000
    sq ft, complex, new, with permits goes from the mid base 6000 through
    the labor factor 1.1600000000000001 to 6960.000000000001, through the
    commercial premium to 7656.000000000002 and, with 500 of add-ons, to a
    [totalMid] of 8156.000000000002: 8156 up to rounding.  The order shows in
    the same request as a repair: its [totalMid] 5093.6000000000013 is not
    what the repair reduction taken before the commercial premium gives. *)
Theorem multiplier_chain_order
    {number : Type} {Num : JSNumber number}
    (formData : CalculatorFormData number) (lowCost highCost : number) :
  ToBoolean (roofSize formData) = true ->
  leb (roofSize formData) (lit 0) = false ->
  get (materialPricing (roofingType formData)) (material formData)
    = Some (lowCost, highCost) ->
  (exists b : CostBreakdown number,
     calculateRoofingCost formData = Return (Some b) /\
     totalLow b
       = add (multiplierChain (roofingType formData) (complexity formData)
                (jobType formData) (mul (roofSize formData) lowCost))
           (addons b) /\
     totalMid b
       = add (multiplierChain (roofingType formData) (complexity formData)
                (jobType formData)
                (mul (roofSize formData)
                   (div (add lowCost highCost) (lit 2))))
           (addons b) /\
     totalHigh b
       = add (multiplierChain (roofingType formData) (complexity formData)
                (jobType formData) (mul (roofSize formData) highCost))
           (addons b)) /\
  (exists b : CostBreakdown float,
     calculateRoofingCost tpoComplexWithPermits = Return (Some b) /\
     (1000 * ((4 + 8) / 2) = 6000)%float /\
     (1 + 0.4 * 0.4 = 1.1600000000000001)%float /\
     (6000 * 1.1600000000000001 = 6960.0000000000009)%float /\
     (6960.0000000000009 * 1.1 = 7656.0000000000018)%float /\
     addons b = 500%float /\
     totalMid b = (7656.0000000000018 + 500)%float /\
     totalMid b = 8156.0000000000018%float /\
     PrimFloat.ltb (PrimFloat.abs (totalMid b - 8156)) 1e-11 = true) /\
  (exists b : CostBreakdown float,
     calculateRoofingCost (withJobType tpoComplexWithPermits repair)
       = Return (Some b) /\
     totalMid b = (6960.0000000000009 * 1.1 * 0.6 + 500)%float /\
     totalMid b = 5093.6000000000013%float /\
     (6960.0000000000009 * 0.6 * 1.1 + 500 = 5093.6000000000004)%float).
Proof.
  intros Ht Hp Hget. split; [| split].
  - rewrite (calculateRoofingCost_entry _ _ _ Ht Hp Hget).
    eexists. split; [reflexivity |].
    unfold finalTotals, adjustedBase, applyJobType, applyCommercial,
      applyComplexity, baseCost, multiplierChain, scale.
    destruct (JobType_eqb (jobType formData) repair),
      (RoofingType_eqb (roofingType formData) commercial);
      repeat split.
  - eexists. split; [vm_compute; reflexivity |].
    repeat split; vm_compute; reflexivity.
  - eexists. split; [vm_compute; reflexivity |].
    repeat split; vm_compute; reflexivity.
Qed.

Lemma multiplier_chain_order_witness :
  ToBoolean (roofSize (withJobType (tpoComplexWithPermits (number := float))
                         repair)) = true /\
  leb (roofSize (withJobType (tpoComplexWithPermits (number := float))
                   repair)) (lit 0) = false /\
  get (materialPricing (number := float) commercial) "tpo"
    = Some (lit 4, lit 8) /\
  exists b : CostBreakdown float,
    calculateRoofingCost (withJobType tpoComplexWithPermits repair)
      = Return (Some b) /\
    totalMid b
      = add (multiplierChain commercial Complexity.complex repair
               (mul (lit 1000) (div (add (lit 4) (lit 8)) (lit 2))))
          (addons b).
Proof.
  assert (Ht : ToBoolean
                 (roofSize (withJobType
                              (tpoComplexWithPermits (number := float))
                              repair)) = true) by reflexivity.
  assert (Hp : leb (roofSize (withJobType
                                (tpoComplexWithPermits (number := float))
                                repair)) (lit 0) = false) by reflexivity.
  assert (Hget : get (materialPricing (number := float) commercial) "tpo"
                 = Some (lit 4, lit 8)) by reflexivity.
  split; [exact Ht |]. split; [exact Hp |]. split; [exact Hget |].
  destruct (proj1 (multiplier_chain_order
                     (withJobType (tpoComplexWithPermits (number := float))
                        repair)
                     (lit 4) (lit 8) Ht Hp Hget))
    as (b & Hb & _ & Hmid & _).
  exists b. split; [exact Hb | exact Hmid].
Defined.

(** C5, as stated, fails in binary64: the [totalMid] of the scenario is not
    8156 but the float two units in the last place above it. *)
Lemma commercial_tpo_scenario_not_8156 :
  exists b : CostBreakdown float,
    calculateRoofingCost tpoComplexWithPermits = Return (Some b) /\
    totalMid b = 8156.0000000000018%float /\
    totalMid b <> 8156%float.
Proof.
  eexists. split; [vm_compute; reflexivity |].
  split; [vm_compute; reflexivity |].
  intros H. apply (f_equal (fun x => PrimFloat.eqb x 8156)) in H.
  vm_compute in H. discriminate.
Qed.

Lemma totalMid_is_midpoint_up_to_rounding_witness :
  Rounded.standard (/ 9007199254740992) roundUp /\
  (0 < roofSize (@tpoComplexWithPermits R (Rounded.number roundUp)))%R /\
  get (@materialPricing R (Rounded.number roundUp) commercial) "tpo"
    = Some (@lit R (Rounded.number roundUp) 4,
            @lit R (Rounded.number roundUp) 8) /\
  exists b : CostBreakdown R,
    @calculateRoofingCost R (Rounded.number roundUp)
      (@tpoComplexWithPermits R (Rounded.number roundUp))
      = Return (Some b) /\
    Rounded.agree (/ 9007199254740992) 16 (totalMid b)
      ((totalLow b + totalHigh b) / 2).
Proof.
  assert (Hsize : (0 < roofSize (@tpoComplexWithPermits R
                                   (Rounded.number roundUp)))%R)
    by (apply roundUp_pos; unfold Q2R; cbn; lra).
  split; [exact roundUp_standard |]. split; [exact Hsize |].
  split; [reflexivity |].
  exact (totalMid_is_midpoint_up_to_rounding (/ 9007199254740992) roundUp
           roundUp_standard
           (@tpoComplexWithPermits R (Rounded.number roundUp))
           _ _ Hsize eq_refl).
Defined.

Lemma calculateRoofSize_rounds_to_nearest_up_to_rounding_witness :
  Rounded.standard (/ 9007199254740992) roundUp /\
  (0 < footprint (house1500 (number := R) Pitch.low))%R /\
  (0 <= overhang (house1500 (number := R) Pitch.low))%R /\
  (exists z : Z,
     @calculateRoofSize R (Rounded.number roundUp)
       (house1500 (number := R) Pitch.low) = IZR z) /\
  ((1 - / 9007199254740992) ^ 12
   * exactRoofArea (house1500 (number := R) Pitch.low) - / 2
   < @calculateRoofSize R (Rounded.number roundUp)
       (house1500 (number := R) Pitch.low)
   <= (1 + / 9007199254740992) ^ 12
      * exactRoofArea (house1500 (number := R) Pitch.low) + / 2)%R.
Proof.
  assert (Hfp : (0 < footprint (house1500 (number := R) Pitch.low))%R)
    by (cbn [house1500 footprint]; ideal; lra).
  assert (Ho : (0 <= overhang (house1500 (number := R) Pitch.low))%R)
    by (cbn [house1500 overhang]; ideal; lra).
  split; [exact roundUp_standard |].
  split; [exact Hfp |]. split; [exact Ho |].
  exact (calculateRoofSize_rounds_to_nearest_up_to_rounding
           (/ 9007199254740992) roundUp roundUp_standard
           (house1500 (number := R) Pitch.low) Hfp Ho).
Defined.

(** In binary64, at a tie of the exact area: for footprint 100,
    overhang 22 and medium pitch the exact area is 253.5 and the result is
    253, the area as computed lying just below the tie. *)
Lemma calculateRoofSize_tie_binary64 :
  calculateRoofSize
    {| footprint := 100%float; overhang := 22%float; pitch := Pitch.medium |}
  = 253%float.
Proof. vm_compute. reflexivity. Qed.

(** X8, over the reals: a repair costs less than a new installation.  For a
    valid request the two have the same add-ons, tear-off being charged on
    neither, and each total of the repair is below that of the new
    installation. *)
Theorem repair_costs_less_than_new (formData : CalculatorFormData R)
    (lowCost highCost : R) :
  (0 < roofSize formData)%R ->
  get (materialPricing (roofingType formData)) (material formData)
    = Some (lowCost, highCost) ->
  exists bn br : CostBreakdown R,
    calculateRoofingCost (withJobType formData new) = Return (Some bn) /\
    calculateRoofingCost (withJobType formData repair) = Return (Some br) /\
    addons br = addons bn /\
    (totalLow br < totalLow bn)%R /\
    (totalMid br < totalMid bn)%R /\
    (totalHigh br < totalHigh bn)%R.
Proof.
  intros Hsize Hget.
  rewrite (Ideal_calculateRoofingCost
             (withJobType formData new) _ _ Hsize Hget).
  rewrite (Ideal_calculateRoofingCost
             (withJobType formData repair) _ _ Hsize Hget).
  do 2 eexists. do 2 (split; [reflexivity |]).
  pose proof (materialPricing_ordered _ _ _ _ Hget) as [Hlow Hle].
  destruct formData as [rt size m jt cx tear perm].
  cbn [roofSize] in Hsize.
  assert (HL : (0 < size * lowCost)%R) by nra.
  assert (HH : (0 < size * highCost)%R) by nra.
  unfold withJobType.
  destruct rt, cx, tear, perm; steps; ideal; repeat split; lra.
Qed.

Lemma repair_costs_less_than_new_witness :
  (0 < roofSize (metalRepair (number := R)))%R /\
  get (materialPricing (number := R) residential) "metal"
    = Some (lit 7, lit 20) /\
  exists bn br : CostBreakdown R,
    calculateRoofingCost (withJobType metalRepair new) = Return (Some bn) /\
    calculateRoofingCost (withJobType metalRepair repair)
      = Return (Some br) /\
    addons br = addons bn /\
    (totalLow br < totalLow bn)%R /\
    (totalMid br < totalMid bn)%R /\
    (totalHigh br < totalHigh bn)%R.
Proof.
  assert (Hsize : (0 < roofSize (metalRepair (number := R)))%R)
    by (cbn [metalRepair roofSize]; ideal; lra).
  split; [exact Hsize |]. split; [reflexivity |].
  exact (repair_costs_less_than_new metalRepair (lit 7) (lit 20)
           Hsize eq_refl).
Defined.
